(** * The arXiv spider: two-stage relevance filter

    A shallow embedding of [daily_arxiv/spiders/arxiv.py] (class
    [ArxivSpider]): the listing parser [parse], the abstract-page callback
    [parse_abstract_page] and the constructor that builds the keyword list
    and the target categories.

    Conventions of the model.
    - Text is a [string] over the code points U+0000..U+00FF; [lower] and
      [isspace] are CPython's [str.lower] and [str.isspace] on that range.
    - A selector call ending in [.get()] is the [option string] it returns.
    - [self] is threaded as explicit state through the generator monad
      [Gen]; a [ValueError] raised by [int], by [response.urljoin] or by
      the constructor [scrapy.Request] ends the generator.
    - [int] is CPython's with its default limit of 4300 digits.
    - The trace of a run records, in program order, every log call, every
      yielded object and every evaluation of [kw.lower() in text]. *)

From Stdlib Require Import String Ascii List ZArith Lia Bool.
Import ListNotations.

Local Open Scope string_scope.
Local Open Scope list_scope.

(** ** Python string primitives *)

Module PyStr.

(** [c.isspace()] for a code point below 256. *)
Definition isspace (c : ascii) : bool :=
  let n := N_of_ascii c in
  ((9 <=? n) && (n <=? 13) || (28 <=? n) && (n <=? 32)
   || (n =? 133) || (n =? 160))%N.

(** [c.lower()] for a code point below 256: A-Z and the Latin-1 capitals
    (U+00C0..U+00DE without the multiplication sign U+00D7) move by 32. *)
Definition lower_char (c : ascii) : ascii :=
  let n := N_of_ascii c in
  if ((65 <=? n) && (n <=? 90)
      || (192 <=? n) && (n <=? 222) && negb (n =? 215))%N
  then ascii_of_N (n + 32) else c.

(** [s.lower()] *)
Fixpoint lower (s : string) : string :=
  match s with
  | EmptyString => EmptyString
  | String c s' => String (lower_char c) (lower s')
  end.

(** [s.lstrip()] *)
Fixpoint lstrip (s : string) : string :=
  match s with
  | EmptyString => EmptyString
  | String c s' => if isspace c then lstrip s' else s
  end.

(** [s.rstrip()] *)
Fixpoint rstrip (s : string) : string :=
  match s with
  | EmptyString => EmptyString
  | String c s' =>
      match rstrip s' with
      | EmptyString => if isspace c then EmptyString else String c EmptyString
      | r => String c r
      end
  end.

(** [s.strip()] *)
Definition strip (s : string) : string := rstrip (lstrip s).

(** [s.startswith(p)] *)
Definition startswith (s p : string) : bool := prefix p s.

(** [p in s]: [p] occurs in [s] as a contiguous substring. *)
Fixpoint contains (s p : string) : bool :=
  match s with
  | EmptyString => startswith s p
  | String _ s' => startswith s p || contains s' p
  end.

(** Scan for non-overlapping occurrences from the left. [skip] counts the
    characters of an occurrence already matched that are still to be
    passed over. *)
Fixpoint replace_from (old new : string) (skip : nat) (s : string) : string :=
  match s with
  | EmptyString => EmptyString
  | String c s' =>
      match skip with
      | S k => replace_from old new k s'
      | O =>
          if startswith s old
          then (new ++ replace_from old new (String.length old - 1) s')%string
          else String c (replace_from old new 0 s')
      end
  end.

(** [s.replace(old, new)] for a non-empty [old]. *)
Definition replace (s old new : string) : string := replace_from old new 0 s.

Fixpoint split_from (sep : string) (skip : nat) (cur s : string) : list string :=
  match s with
  | EmptyString => [cur]
  | String c s' =>
      match skip with
      | S k => split_from sep k cur s'
      | O =>
          if startswith s sep
          then cur :: split_from sep (String.length sep - 1) EmptyString s'
          else split_from sep 0 (cur ++ String c EmptyString)%string s'
      end
  end.

(** [s.split(sep)] for a non-empty [sep]. *)
Definition split (s sep : string) : list string :=
  split_from sep 0 EmptyString s.

(** [xs[-1]] on the non-empty list a [split] returns. *)
Definition last_field (xs : list string) : string := last xs EmptyString.

(** [s[:n]] *)
Fixpoint slice_to (n : nat) (s : string) : string :=
  match n, s with
  | S k, String c s' => String c (slice_to k s')
  | _, _ => EmptyString
  end.

Definition digit_value (c : ascii) : option Z :=
  let n := N_of_ascii c in
  if ((48 <=? n) && (n <=? 57))%N then Some (Z.of_N n - 48)%Z else None.

(** Digits of a decimal literal, single underscores allowed between two
    digits. [prev] tells whether the previous character was a digit. *)
Fixpoint int_digits (acc : Z) (prev : bool) (s : string) : option Z :=
  match s with
  | EmptyString => if prev then Some acc else None
  | String c s' =>
      match digit_value c with
      | Some d => int_digits (acc * 10 + d)%Z true s'
      | None =>
          if (c =? "_")%char && prev then int_digits acc false s' else None
      end
  end.

(** The characters [int] passes over around a literal: the ASCII white
    space of C (tab to carriage return, and the space) and, of the
    characters above U+007F, those [str.isspace] accepts. The separators
    U+001C..U+001F are white space for [str.strip] but not here. *)
Definition int_space (c : ascii) : bool :=
  let n := N_of_ascii c in
  ((9 <=? n) && (n <=? 13) || (n =? 32) || (n =? 133) || (n =? 160))%N.

Fixpoint int_lstrip (s : string) : string :=
  match s with
  | EmptyString => EmptyString
  | String c s' => if int_space c then int_lstrip s' else s
  end.

Fixpoint int_rstrip (s : string) : string :=
  match s with
  | EmptyString => EmptyString
  | String c s' =>
      match int_rstrip s' with
      | EmptyString => if int_space c then EmptyString else String c EmptyString
      | r => String c r
      end
  end.

(** The number of decimal digits in a text. *)
Fixpoint count_digits (s : string) : N :=
  match s with
  | EmptyString => 0%N
  | String c s' =>
      match digit_value c with
      | Some _ => N.succ (count_digits s')
      | None => count_digits s'
      end
  end.

(** [sys.get_int_max_str_digits()], at its default. *)
Definition max_str_digits : N := 4300.

(** The literal after the sign: refused when it has more digits than
    the limit. *)
Definition int_literal (ds : string) : option Z :=
  if (count_digits ds <=? max_str_digits)%N then int_digits 0 false ds
  else None.

(** [int(s)] in base 10: surrounding whitespace, an optional sign, then
    the digits. [None] stands for the [ValueError] it raises. *)
Definition int (s : string) : option Z :=
  match int_rstrip (int_lstrip s) with
  | String "-" ds => option_map Z.opp (int_literal ds)
  | String "+" ds => int_literal ds
  | ds => int_literal ds
  end.

(** Truth value of the result of [.get()]: [None] and the empty string
    are false. *)
Definition truthy (o : option string) : bool :=
  match o with
  | Some (String _ _) => true
  | _ => false
  end.

(** The text of a [.get()] result that tested true. *)
Definition non_empty (o : option string) : option string :=
  if truthy o then o else None.

(** [re.findall(r'\(([^)]+)\)', s)]. Outside a group ([cur = None]) an
    opening parenthesis starts one; inside, a closing parenthesis ends it
    and the captured text is kept when it is not empty. A group still
    open at the end of [s] matches nothing. *)
Fixpoint findall_parens_from (cur : option string) (s : string) : list string :=
  match s with
  | EmptyString => []
  | String c s' =>
      match cur with
      | None =>
          if (c =? "(")%char then findall_parens_from (Some EmptyString) s'
          else findall_parens_from None s'
      | Some g =>
          if (c =? ")")%char then
            match g with
            | EmptyString => findall_parens_from None s'
            | _ => g :: findall_parens_from None s'
            end
          else findall_parens_from (Some (g ++ String c EmptyString)%string) s'
      end
  end.

Definition findall_parens (s : string) : list string :=
  findall_parens_from None s.

End PyStr.

(** ** Data model *)

(** The order in which [list(set(xs))] enumerates the distinct elements
    of [xs] is fixed for one interpreter process but not by the language;
    the model takes it as an interface. *)
Class SetOrder := {
  list_of_set : list string -> list string;
  list_of_set_In : forall xs x, In x (list_of_set xs) <-> In x xs;
  list_of_set_NoDup : forall xs, NoDup (list_of_set xs)
}.

(** Between the title test and the yield, [parse] calls
    [response.urljoin(abstract_link)] and the constructor
    [scrapy.Request(url=...)]. Either call can raise [ValueError]:
    [urljoin] on a link it cannot split, the constructor on a joined URL
    that has no "://" and is no about: or data: URL. The model takes the
    outcome as an interface, [request_accepted base link] for the page
    URL [base], with two facts about it: on a page of arxiv.org a link
    that begins with /abs/ joins to a URL of that host and is accepted;
    a mailto: link without a slash is joined to itself and refused. *)
Class RequestCheck := {
  request_accepted : string -> string -> bool;
  abs_path_accepted :
    forall base link,
      PyStr.startswith base "https://arxiv.org/" = true ->
      PyStr.startswith link "/abs/" = true ->
      request_accepted base link = true;
  mailto_refused :
    forall base link,
      PyStr.startswith link "mailto:" = true ->
      PyStr.contains link "/" = false ->
      request_accepted base link = false
}.

(** [item_data = {"id": ..., "categories": ...}] *)
Record Item := { id : string; categories : list string }.

(** [response.urljoin(link)], kept symbolic. *)
Record Url := { base_url : string; link : string }.

(** The [meta] dictionary of an abstract-page request. *)
Record Meta := { item_data : Item; title_prefix : string }.

(** [scrapy.Request(url=..., callback=self.parse_abstract_page, meta=...)] *)
Record Request := { url : Url; meta : Meta }.

Inductive Level := DEBUG | INFO | WARNING.

Inductive Event :=
| Tested (kw text : string)   (* one evaluation of [kw.lower() in text] *)
| Log (lvl : Level) (msg : string)
| YieldItem (it : Item)
| YieldRequest (rq : Request).

(** What the selectors used by [parse] return on one [dd] element. *)
Record Dd := {
  primary_subject_text : option string; (* .list-subjects .primary-subject::text *)
  list_subjects_text : option string;   (* .list-subjects::text *)
  list_title_string : option string     (* .list-title, string() *)
}.

(** What they return on one [dt] element of [dl dt]. *)
Record Dt := {
  item_anchor_name : option string;     (* a[name^='item']::attr(name) *)
  abstract_href : option string;        (* a[title='Abstract']::attr(href) *)
  following_dd : option Dd              (* following-sibling::dd[1] *)
}.

(** A listing page: its URL, the first link of every [li] of
    [div[id=dlpage] ul li], and its [dt] elements in document order. *)
Record ListingResponse := {
  response_url : string;
  dlpage_li_hrefs : list (option string);
  dl_dts : list Dt
}.

(** An abstract page: the carried [meta] and the text of
    [blockquote.abstract]. *)
Record AbstractResponse := {
  response_meta : Meta;
  blockquote_abstract : option string
}.

(** The attributes of [self] the callbacks read. *)
Record Spider := {
  target_categories : list string;
  my_keywords : list string
}.

(** ** The generator monad *)

Inductive Exn := ValueError.

Inductive Completion (A : Type) :=
| Returned (a : A)
| Raised (e : Exn).
Arguments Returned {A} a.
Arguments Raised {A} e.

Record Run (A : Type) := {
  final : Spider;
  trace : list Event;
  completion : Completion A
}.
Arguments final {A} r.
Arguments trace {A} r.
Arguments completion {A} r.

Definition Gen (A : Type) : Type := Spider -> Run A.

Definition ret {A} (a : A) : Gen A :=
  fun s => {| final := s; trace := []; completion := Returned a |}.

Definition bind {A B} (m : Gen A) (k : A -> Gen B) : Gen B :=
  fun s =>
    let r := m s in
    match completion r with
    | Raised e => {| final := final r; trace := trace r; completion := Raised e |}
    | Returned a =>
        let r' := k a (final r) in
        {| final := final r'; trace := trace r ++ trace r';
           completion := completion r' |}
    end.

Definition emit (e : Event) : Gen unit :=
  fun s => {| final := s; trace := [e]; completion := Returned tt |}.

Definition raise {A} (e : Exn) : Gen A :=
  fun s => {| final := s; trace := []; completion := Raised e |}.

(** Read an attribute of [self]. *)
Definition self {A} (f : Spider -> A) : Gen A :=
  fun s => {| final := s; trace := []; completion := Returned (f s) |}.

(** [int(s)] inside a generator. *)
Definition int_ (s : string) : Gen Z :=
  match PyStr.int s with
  | Some n => ret n
  | None => raise ValueError
  end.

Declare Scope gen_scope.
Delimit Scope gen_scope with gen.
Notation "x <- m ;; k" := (bind m (fun x => k))
  (at level 61, m at next level, right associativity) : gen_scope.
Notation "m ;; k" := (bind m (fun _ => k))
  (at level 61, right associativity) : gen_scope.
Local Open Scope gen_scope.

(** [for x in xs: body(x)] *)
Fixpoint for_each {A} (xs : list A) (body : A -> Gen unit) : Gen unit :=
  match xs with
  | [] => ret tt
  | x :: rest => body x ;; for_each rest body
  end.

(** ** The spider *)

(** The literal of [self.my_keywords]. Two adjacent string literals with
    no comma between them are one literal, written here with [++]. *)
Definition keyword_literal : list string :=
  [ "strong lens"; "strong gravitational lens"; ("strong lensing" ++
    "lens model")%string; "lensing";
    "dark matter"; "DM halo";
    "ALMA"; "SKA"; ("interferometer" ++
    "Dust")%string; "dusty";
    "DSFGs"; "submillimeter";
    "high-redshift"; "z >"; "z>";
    "polarization"; "polarized"; "polarised";
    "gas"; "molecular"; "molecular gas";
    "SPT"; "Herschel"; "JWST"; "Euclid"; "CSST" ].

(** [__init__]; the argument is the value of the environment variable
    [CATEGORIES], if set. The set of target categories is kept as the
    list of its elements. *)
Definition init (env_categories : option string) : Spider :=
  let categories :=
    match env_categories with
    | Some v => v
    | None => "astro-ph.GA, astro-ph.CO"
    end in
  let categories := PyStr.split categories "," in
  {| target_categories := map PyStr.strip categories;
     my_keywords := keyword_literal |}.

(** [x in ys] *)
Definition mem (x : string) (ys : list string) : bool :=
  existsb (String.eqb x) ys.

(** [set(xs).intersection(ys)], as the list of its elements. *)
Definition intersection (xs ys : list string) : list string :=
  filter (fun x => mem x ys) xs.

(** Truth value of a collection. *)
Definition non_empty_list {A} (xs : list A) : bool :=
  match xs with
  | [] => false
  | _ :: _ => true
  end.

(** First loop of [parse]: the integer suffixes of the navigation links. *)
Fixpoint collect_anchors (lis : list (option string)) (anchors : list Z)
  : Gen (list Z) :=
  match lis with
  | [] => ret anchors
  | li :: rest =>
      match PyStr.non_empty li with
      | Some href =>
          if PyStr.contains href "item" then
            n <- int_ (PyStr.last_field (PyStr.split href "item")) ;;
            collect_anchors rest (anchors ++ [n])
          else collect_anchors rest anchors
      | None => collect_anchors rest anchors
      end
  end.

(** [anchors and paper_id >= anchors[-1]] *)
Definition past_bound (anchors : list Z) (paper_id : Z) : bool :=
  non_empty_list anchors && (last anchors 0 <=? paper_id)%Z.

(** The keyword loop of [parse]: [for kw in self.my_keywords], leaving
    at the first hit. *)
Fixpoint title_loop (kws : list string) (clean_title : string) : Gen bool :=
  match kws with
  | [] => ret false
  | kw :: rest =>
      emit (Tested kw clean_title) ;;
      if PyStr.contains clean_title (PyStr.lower kw) then ret true
      else title_loop rest clean_title
  end.

Definition is_title_interested (clean_title : string) : Gen bool :=
  kws <- self my_keywords ;;
  title_loop kws clean_title.

(** The keyword loop of [parse_abstract_page]. *)
Fixpoint abstract_loop (kws : list string) (clean_abstract : string) : Gen bool :=
  match kws with
  | [] => ret false
  | kw :: rest =>
      emit (Tested kw clean_abstract) ;;
      if PyStr.contains clean_abstract (PyStr.lower kw) then ret true
      else abstract_loop rest clean_abstract
  end.

Definition is_abstract_interested (clean_abstract : string) : Gen bool :=
  kws <- self my_keywords ;;
  abstract_loop kws clean_abstract.

(** [title_text.replace("Title:", '').strip().lower()], and the empty
    string when the title text is missing or empty. *)
Definition clean_title_of (title_text : option string) : string :=
  match PyStr.non_empty title_text with
  | Some t => PyStr.lower (PyStr.strip (PyStr.replace t "Title:" EmptyString))
  | None => EmptyString
  end.

(** [abstract_text.replace("Abstract:", '').strip().lower()] *)
Definition clean_abstract_of (abstract_text : string) : string :=
  PyStr.lower (PyStr.strip (PyStr.replace abstract_text "Abstract:" EmptyString)).

(** The subjects text of an entry: the primary subject, else the text of
    the subjects line. *)
Definition subjects_text_of (paper_dd : Dd) : option string :=
  if PyStr.truthy (primary_subject_text paper_dd)
  then primary_subject_text paper_dd
  else list_subjects_text paper_dd.

(** [categories]: empty unless the subjects text tests true. *)
Definition categories_of `{SetOrder} (subjects_text : option string) : list string :=
  match PyStr.non_empty subjects_text with
  | Some t => list_of_set (PyStr.findall_parens t)
  | None => []
  end.

(** The f-strings of the log calls. *)
Definition category_skip_message (arxiv_id : string) : string :=
  "Skipped paper " ++ arxiv_id ++ " (category mismatch)".

Definition title_hit_message (arxiv_id clean_title : string) : string :=
  "Found INTERESTING paper (by Title) " ++ arxiv_id ++ ": "
  ++ PyStr.slice_to 50 clean_title ++ "...".

Definition abstract_hit_message (item_id title_prefix : string) : string :=
  "Found INTERESTING paper (by Abstract) " ++ item_id ++ ": "
  ++ title_prefix ++ "...".

Definition keyword_skip_message (item_id : string) : string :=
  "Skipped paper " ++ item_id ++ ": Keywords not found in Title or Abstract".

Definition no_abstract_message (item_id : string) : string :=
  "Could not extract abstract for " ++ item_id.

Section Parse.
Context `{SetOrder}.
Context `{RequestCheck}.

(** Title check and what follows it, for an entry past the category gate. *)
Definition title_stage (base : string) (abstract_link arxiv_id : string)
    (item : Item) (paper_dd : Dd) : Gen unit :=
  let clean_title := clean_title_of (list_title_string paper_dd) in
  interested <- is_title_interested clean_title ;;
  if interested then
    emit (Log INFO (title_hit_message arxiv_id clean_title)) ;;
    emit (YieldItem item)
  else if request_accepted base abstract_link then
    emit (YieldRequest
            {| url := {| base_url := base; link := abstract_link |};
               meta := {| item_data := item;
                          title_prefix := PyStr.slice_to 30 clean_title |} |})
  else raise ValueError.

(** Categories, category gate and title stage of an entry that has its
    [dd]. *)
Definition category_stage (base : string) (abstract_link arxiv_id : string)
    (paper_dd : Dd) : Gen unit :=
  let subjects_text := subjects_text_of paper_dd in
  let categories := categories_of subjects_text in
  let item := {| id := arxiv_id; categories := categories |} in
  targets <- self target_categories ;;
  if negb (non_empty_list (intersection categories targets))
     && PyStr.truthy subjects_text
  then emit (Log DEBUG (category_skip_message arxiv_id))
  else title_stage base abstract_link arxiv_id item paper_dd.

(** What [parse] does with an entry once its position passed the bound
    test. *)
Definition entry_stage (base : string) (paper_dt : Dt) : Gen unit :=
  match PyStr.non_empty (abstract_href paper_dt) with
  | None => ret tt
  | Some abstract_link =>
      let arxiv_id := PyStr.last_field (PyStr.split abstract_link "/") in
      match following_dd paper_dt with
      | None => ret tt
      | Some paper_dd => category_stage base abstract_link arxiv_id paper_dd
      end
  end.

(** Body of the second loop of [parse]; every early [ret tt] is a
    [continue]. *)
Definition parse_dt (base : string) (anchors : list Z) (paper_dt : Dt) : Gen unit :=
  match PyStr.non_empty (item_anchor_name paper_dt) with
  | None => ret tt
  | Some paper_anchor =>
      paper_id <- int_ (PyStr.last_field (PyStr.split paper_anchor "item")) ;;
      if past_bound anchors paper_id then ret tt
      else entry_stage base paper_dt
  end.

(** [parse(self, response)] *)
Definition parse (response : ListingResponse) : Gen unit :=
  anchors <- collect_anchors (dlpage_li_hrefs response) [] ;;
  for_each (dl_dts response) (parse_dt (response_url response) anchors).

(** [parse_abstract_page(self, response)] *)
Definition parse_abstract_page (response : AbstractResponse) : Gen unit :=
  let item := item_data (response_meta response) in
  let title_prefix := title_prefix (response_meta response) in
  match PyStr.non_empty (blockquote_abstract response) with
  | Some abstract_text =>
      let clean_abstract := clean_abstract_of abstract_text in
      interested <- is_abstract_interested clean_abstract ;;
      if interested then
        emit (Log INFO (abstract_hit_message (id item) title_prefix)) ;;
        emit (YieldItem item)
      else
        emit (Log INFO (keyword_skip_message (id item)))
  | None =>
      emit (Log WARNING (no_abstract_message (id item)))
  end.

End Parse.

(** ** Reading a trace *)

(** The items handed to the output sink. *)
Definition items_of (t : list Event) : list Item :=
  flat_map (fun e => match e with YieldItem it => [it] | _ => [] end) t.

(** The abstract-page requests issued. *)
Definition requests_of (t : list Event) : list Request :=
  flat_map (fun e => match e with YieldRequest rq => [rq] | _ => [] end) t.

(** The keyword patterns evaluated, in order. *)
Definition tested_of (t : list Event) : list string :=
  flat_map (fun e => match e with Tested kw _ => [kw] | _ => [] end) t.

(** The log records. *)
Definition logs_of (t : list Event) : list (Level * string) :=
  flat_map (fun e => match e with Log l m => [(l, m)] | _ => [] end) t.

(** ** The engine around the callbacks *)

(** What fetching a URL gives: [None] when the fetch fails and no
    callback runs, otherwise the text of the abstract block of the page,
    if it has one. *)
Definition Fetch : Type := Url -> option (option string).

(** The engine answers a request by calling its callback on the response,
    which carries the request's [meta]. *)
Definition answer (fetch : Fetch) (rq : Request) : Gen unit :=
  match fetch (url rq) with
  | Some page =>
      parse_abstract_page {| response_meta := meta rq; blockquote_abstract := page |}
  | None => ret tt
  end.

(** Run a callback, then answer the requests it yielded. Requests yielded
    before an exception are answered too. *)
Definition with_answers (fetch : Fetch) (m : Gen unit) : Gen unit :=
  fun s =>
    let r := m s in
    let r' := for_each (requests_of (trace r)) (answer fetch) (final r) in
    {| final := final r'; trace := trace r ++ trace r';
       completion := completion r |}.

(** One listing entry followed to its end. *)
Definition entry_chain `{SetOrder} `{RequestCheck} (fetch : Fetch) (base : string)
    (anchors : list Z) (paper_dt : Dt) : Gen unit :=
  with_answers fetch (parse_dt base anchors paper_dt).

(** One listing page followed to its end. *)
Definition crawl `{SetOrder} `{RequestCheck} (fetch : Fetch)
    (response : ListingResponse) : Gen unit :=
  with_answers fetch (parse response).

(** ** Specification vocabulary *)

(** [kw] occurs in [text] up to letter case: some substring of [text]
    and [kw] have the same lower-case form. *)
Definition ci_substring (kw text : string) : Prop :=
  exists pre u post,
    text = (pre ++ u ++ post)%string /\ PyStr.lower u = PyStr.lower kw.

(** No pattern of [kws] occurs in [text]. *)
Definition no_keyword (kws : list string) (text : string) : Prop :=
  Forall (fun kw => ~ ci_substring kw text) kws.

(** [kw] is the first pattern of [kws], in list order, that occurs in
    [text]; [pre] are the patterns before it. *)
Definition first_hit (kws pre : list string) (kw text : string) : Prop :=
  (exists post, kws = pre ++ kw :: post)
  /\ no_keyword pre text /\ ci_substring kw text.

(** The comparisons the trace of a keyword test shows for the patterns
    [kws] against [text]. *)
Definition tests (kws : list string) (text : string) : list Event :=
  map (fun kw => Tested kw text) kws.

(** The title prefix removal the specification words describe: a leading
    label is dropped, nothing else. *)
Definition strip_label_prefix (label s : string) : string :=
  if PyStr.startswith s label
  then substring (String.length label) (String.length s - String.length label) s
  else s.

(** Title normalization as the specification words it. *)
Definition spec_normalize_title (title_text : string) : string :=
  PyStr.lower (PyStr.strip (strip_label_prefix "Title:" title_text)).

(** The entry passes the category gate: its subjects text is missing or
    empty, or one of its categories is a target category. *)
Definition passes_gate `{SetOrder} (targets : list string) (paper_dd : Dd) : bool :=
  let subjects_text := subjects_text_of paper_dd in
  negb (PyStr.truthy subjects_text)
  || non_empty_list (intersection (categories_of subjects_text) targets).

(** The item [parse] builds for an entry. *)
Definition item_of `{SetOrder} (arxiv_id : string) (paper_dd : Dd) : Item :=
  {| id := arxiv_id; categories := categories_of (subjects_text_of paper_dd) |}.

(** The request [parse] issues when the title decides nothing. *)
Definition escalation (base abstract_link : string) (item : Item)
    (clean_title : string) : Request :=
  {| url := {| base_url := base; link := abstract_link |};
     meta := {| item_data := item;
                title_prefix := PyStr.slice_to 30 clean_title |} |}.

(** The texts the first loop of [parse] hands to [int], in order. *)
Definition anchor_suffixes (lis : list (option string)) : list string :=
  flat_map
    (fun li =>
       match PyStr.non_empty li with
       | Some href =>
           if PyStr.contains href "item"
           then [PyStr.last_field (PyStr.split href "item")]
           else []
       | None => []
       end) lis.

(** The position index of an entry that has one. *)
Definition paper_id_of (paper_dt : Dt) : option Z :=
  match PyStr.non_empty (item_anchor_name paper_dt) with
  | Some paper_anchor =>
      PyStr.int (PyStr.last_field (PyStr.split paper_anchor "item"))
  | None => None
  end.

(** The same listing page with other entries. *)
Definition with_dts (response : ListingResponse) (dts : list Dt)
  : ListingResponse :=
  {| response_url := response_url response;
     dlpage_li_hrefs := dlpage_li_hrefs response;
     dl_dts := dts |}.

(** What stage 1 does with an entry past the category gate: the patterns
    are tried in list order up to the first one that occurs in the title;
    with a hit the item is yielded and nothing is requested; without one
    the abstract page is requested and nothing is yielded when the link
    is accepted, and when it is refused the [ValueError] ends the run
    with nothing yielded. *)
Definition title_decision `{RequestCheck} (s : Spider)
    (base link arxiv_id : string) (item : Item) (title : string)
    (r : Run unit) : Prop :=
  (exists pre kw,
      first_hit (my_keywords s) pre kw title
      /\ completion r = Returned tt
      /\ trace r = tests (pre ++ [kw]) title
                   ++ [Log INFO (title_hit_message arxiv_id title);
                       YieldItem item]
      /\ tested_of (trace r) = pre ++ [kw]
      /\ items_of (trace r) = [item]
      /\ requests_of (trace r) = [])
  \/ (no_keyword (my_keywords s) title
      /\ request_accepted base link = true
      /\ completion r = Returned tt
      /\ trace r = tests (my_keywords s) title
                   ++ [YieldRequest (escalation base link item title)]
      /\ tested_of (trace r) = my_keywords s
      /\ items_of (trace r) = []
      /\ requests_of (trace r) = [escalation base link item title])
  \/ (no_keyword (my_keywords s) title
      /\ request_accepted base link = false
      /\ completion r = Raised ValueError
      /\ trace r = tests (my_keywords s) title
      /\ tested_of (trace r) = my_keywords s
      /\ items_of (trace r) = []
      /\ requests_of (trace r) = []).

(** The claim about the title test as first worded: without a hit the
    abstract page is requested, whatever the link. *)
Definition escalates_without_hit (s : Spider) (base link : string)
    (item : Item) (title : string) (r : Run unit) : Prop :=
  no_keyword (my_keywords s) title ->
  requests_of (trace r) = [escalation base link item title].


(** What one entry can leave in the trace of [parse]: nothing to the
    sink and no request, or one item, or one request. *)
Definition entry_outcome (t : list Event) : Prop :=
  (items_of t = [] /\ requests_of t = [])
  \/ (exists it, items_of t = [it] /\ requests_of t = [])
  \/ (exists rq, items_of t = [] /\ requests_of t = [rq]).

(** A computation that leaves [self] as it found it. *)
Definition read_only {A} (m : Gen A) : Prop := forall s, final (m s) = s.

(** The test [kw.lower() in text] of the keyword loops. *)
Definition hits (text kw : string) : bool :=
  PyStr.contains text (PyStr.lower kw).

(** ** Sample pages *)

(** A new entry of a target category whose title holds a keyword. *)
Definition survey_dd : Dd :=
  {| primary_subject_text := Some "Astrophysics of Galaxies (astro-ph.GA)";
     list_subjects_text := None;
     list_title_string := Some "Title: A Strong Lensing Survey" |}.

Definition survey_dt : Dt :=
  {| item_anchor_name := Some "item5";
     abstract_href := Some "/abs/2401.00002";
     following_dd := Some survey_dd |}.

(** The same entry placed at the last navigation anchor. *)
Definition late_dt : Dt :=
  {| item_anchor_name := Some "item30";
     abstract_href := Some "/abs/2401.00002";
     following_dd := Some survey_dd |}.

(** An entry of a category that is no target. *)
Definition foreign_dd : Dd :=
  {| primary_subject_text := Some "Machine Learning (cs.LG)";
     list_subjects_text := None;
     list_title_string := Some "Title: Strong Lensing with Neural Networks" |}.

Definition foreign_dt : Dt :=
  {| item_anchor_name := Some "item7";
     abstract_href := Some "/abs/2401.00004";
     following_dd := Some foreign_dd |}.

(** An entry whose anchor name carries no integer. *)
Definition broken_dt : Dt :=
  {| item_anchor_name := Some "itemX";
     abstract_href := Some "/abs/2401.00005";
     following_dd := Some survey_dd |}.

(** An entry whose title holds the pattern "gas". *)
Definition gas_dd : Dd :=
  {| primary_subject_text := Some "Astrophysics of Galaxies (astro-ph.GA)";
     list_subjects_text := None;
     list_title_string := Some "Title: A Survey of Gas Content" |}.

Definition gas_dt : Dt :=
  {| item_anchor_name := Some "item5";
     abstract_href := Some "/abs/2401.00003";
     following_dd := Some gas_dd |}.

(** An escalated record and the abstract its page shows. *)
Definition gas_meta : Meta :=
  {| item_data := {| id := "2401.00003"; categories := ["astro-ph.GA"] |};
     title_prefix := "a survey of cold clouds" |}.

Definition gas_abstract : string :=
  "Abstract: We study Molecular Gas content in nearby clouds.".

(** A listing page with one new entry about an interferometer. *)
Definition interferometer_dd : Dd :=
  {| primary_subject_text := Some "Astrophysics of Galaxies (astro-ph.GA)";
     list_subjects_text := None;
     list_title_string := Some "Title: A New Interferometer" |}.

Definition interferometer_dt : Dt :=
  {| item_anchor_name := Some "item1";
     abstract_href := Some "/abs/2401.00001";
     following_dd := Some interferometer_dd |}.

Definition interferometer_page : ListingResponse :=
  {| response_url := "https://arxiv.org/list/astro-ph.GA/new";
     dlpage_li_hrefs := [Some "#item0"; Some "#item24"; Some "#item30"];
     dl_dts := [interferometer_dt] |}.

Definition interferometer_abstract : string :=
  "Abstract: We build an interferometer for radio imaging.".

Definition interferometer_fetch : Fetch :=
  fun _ => Some (Some interferometer_abstract).

(** One admissible order for [list(set(xs))]: first occurrence. *)
#[export] Instance first_occurrence_order : SetOrder.
Proof.
  refine {| list_of_set := fun xs => rev (nodup string_dec (rev xs)) |}.
  - intros xs x. rewrite <- in_rev, nodup_In, <- in_rev. reflexivity.
  - intros xs. apply NoDup_rev, NoDup_nodup.
Defined.

(** A behaviour of the library that has the two facts: only the links
    the first fact speaks of are accepted. The concrete runs below use
    links one of the two facts decides. *)
#[export] Instance cautious_requests : RequestCheck.
Proof.
  refine {| request_accepted := fun base link =>
              PyStr.startswith base "https://arxiv.org/"
              && PyStr.startswith link "/abs/" |}.
  - intros base link Hb Hl. now rewrite Hb, Hl.
  - intros base link Hm _. apply andb_false_iff. right.
    destruct link as [|c link]; [reflexivity|].
    unfold PyStr.startswith in *. cbn [prefix].
    destruct (ascii_dec "/" c) as [E|N]; [|reflexivity].
    subst c. cbv in Hm. discriminate Hm.
Defined.

(** ** Further vocabulary *)

(** [self.start_urls]: one listing URL per element of the set of target
    categories, in the order the set is iterated. *)
Definition start_urls `{SetOrder} (s : Spider) : list string :=
  map (fun cat => ("https://arxiv.org/list/" ++ cat ++ "/new")%string)
      (list_of_set (target_categories s)).

(** The same listing page without its navigation links. *)
Definition without_nav (response : ListingResponse) : ListingResponse :=
  {| response_url := response_url response;
     dlpage_li_hrefs := [];
     dl_dts := dl_dts response |}.

(** An entry [parse] passes over without a trace: it has no anchor name,
    or it has a position index but no abstract link or no [dd]. *)
Definition malformed (paper_dt : Dt) : Prop :=
  PyStr.non_empty (item_anchor_name paper_dt) = None
  \/ (exists n, paper_id_of paper_dt = Some n)
     /\ (PyStr.non_empty (abstract_href paper_dt) = None
         \/ following_dd paper_dt = None).

(** The item [parse] builds for the entry [paper_dt]: the entry has an
    abstract link and a [dd], and it passes the category gate. *)
Definition built_from `{SetOrder} (targets : list string) (paper_dt : Dt)
    (it : Item) : Prop :=
  exists abstract_link paper_dd,
    PyStr.non_empty (abstract_href paper_dt) = Some abstract_link
    /\ following_dd paper_dt = Some paper_dd
    /\ passes_gate targets paper_dd = true
    /\ it = item_of (PyStr.last_field (PyStr.split abstract_link "/")) paper_dd.

(** The five traces one entry can leave in [parse]. *)
Inductive EntryTrace `{SetOrder} `{RequestCheck} (base : string) (s : Spider)
    (paper_dt : Dt)
  : list Event -> Prop :=
| Silent : EntryTrace base s paper_dt []
| CategorySkip (abstract_link : string) (paper_dd : Dd) :
    PyStr.non_empty (abstract_href paper_dt) = Some abstract_link ->
    following_dd paper_dt = Some paper_dd ->
    passes_gate (target_categories s) paper_dd = false ->
    EntryTrace base s paper_dt
      [Log DEBUG (category_skip_message
                    (PyStr.last_field (PyStr.split abstract_link "/")))]
| TitleHit (abstract_link : string) (paper_dd : Dd)
    (pre : list string) (kw : string) (post : list string) :
    PyStr.non_empty (abstract_href paper_dt) = Some abstract_link ->
    following_dd paper_dt = Some paper_dd ->
    passes_gate (target_categories s) paper_dd = true ->
    my_keywords s = pre ++ kw :: post ->
    Forall (fun k => hits (clean_title_of (list_title_string paper_dd)) k = false)
      pre ->
    hits (clean_title_of (list_title_string paper_dd)) kw = true ->
    EntryTrace base s paper_dt
      (tests (pre ++ [kw]) (clean_title_of (list_title_string paper_dd))
       ++ [Log INFO (title_hit_message
                       (PyStr.last_field (PyStr.split abstract_link "/"))
                       (clean_title_of (list_title_string paper_dd)));
           YieldItem (item_of (PyStr.last_field (PyStr.split abstract_link "/"))
                        paper_dd)])
| Refused (abstract_link : string) (paper_dd : Dd) :
    PyStr.non_empty (abstract_href paper_dt) = Some abstract_link ->
    following_dd paper_dt = Some paper_dd ->
    passes_gate (target_categories s) paper_dd = true ->
    Forall (fun k => hits (clean_title_of (list_title_string paper_dd)) k = false)
      (my_keywords s) ->
    request_accepted base abstract_link = false ->
    EntryTrace base s paper_dt
      (tests (my_keywords s) (clean_title_of (list_title_string paper_dd)))
| Escalated (abstract_link : string) (paper_dd : Dd) :
    PyStr.non_empty (abstract_href paper_dt) = Some abstract_link ->
    following_dd paper_dt = Some paper_dd ->
    passes_gate (target_categories s) paper_dd = true ->
    Forall (fun k => hits (clean_title_of (list_title_string paper_dd)) k = false)
      (my_keywords s) ->
    request_accepted base abstract_link = true ->
    EntryTrace base s paper_dt
      (tests (my_keywords s) (clean_title_of (list_title_string paper_dd))
       ++ [YieldRequest
             (escalation base abstract_link
                (item_of (PyStr.last_field (PyStr.split abstract_link "/"))
                   paper_dd)
                (clean_title_of (list_title_string paper_dd)))]).

(** What an engine sees of a run: the items, the requests and how the
    run ended. *)
Definition outputs {A} (r : Run A) : list Item * list Request * Completion A :=
  (items_of (trace r), requests_of (trace r), completion r).

(** The two spiders differ at most in the order and repetition of their
    keywords. *)
Definition same_keywords (s1 s2 : Spider) : Prop :=
  target_categories s1 = target_categories s2
  /\ forall kw, In kw (my_keywords s1) <-> In kw (my_keywords s2).

(** The text after the first [n] characters. *)
Fixpoint drop (n : nat) (s : string) : string :=
  match n, s with
  | S k, String _ s' => drop k s'
  | _, _ => s
  end.

(** ** More sample pages *)

(** An entry with a position index and no abstract link. *)
Definition no_link_dt : Dt :=
  {| item_anchor_name := Some "item3";
     abstract_href := None;
     following_dd := Some survey_dd |}.

(** A page with a malformed entry between two good ones. *)
Definition mixed_page : ListingResponse :=
  with_dts interferometer_page [survey_dt; no_link_dt; gas_dt].

(** A page with an entry whose anchor carries no integer. *)
Definition broken_page : ListingResponse :=
  with_dts interferometer_page [survey_dt; broken_dt; gas_dt].

(** A page whose second navigation link has no integer after "item". *)
Definition bad_nav_page : ListingResponse :=
  {| response_url := "https://arxiv.org/list/astro-ph.GA/new";
     dlpage_li_hrefs := [Some "#item0"; Some "#items"];
     dl_dts := [survey_dt] |}.

(** Every abstract page shows the abstract about molecular gas. *)
Definition gas_fetch : Fetch := fun _ => Some (Some gas_abstract).

(** The item of the interferometer entry. *)
Definition interferometer_item : Item :=
  {| id := "2401.00001"; categories := ["astro-ph.GA"] |}.

(** The default spider with its keywords in reverse order. *)
Definition reversed_spider : Spider :=
  {| target_categories := target_categories (init None);
     my_keywords := rev keyword_literal |}.


(** The interferometer entry with an abstract link that has no "://"
    and that [urljoin] leaves as it is. *)
Definition mailto_dt : Dt :=
  {| item_anchor_name := Some "item1";
     abstract_href := Some "mailto:x@y.z";
     following_dd := Some interferometer_dd |}.

(** An entry of a target category without a title block. *)
Definition untitled_dd : Dd :=
  {| primary_subject_text := Some "Astrophysics of Galaxies (astro-ph.GA)";
     list_subjects_text := None;
     list_title_string := None |}.

(** An entry whose subjects text names no category in parentheses. *)
Definition plain_subject_dd : Dd :=
  {| primary_subject_text := Some "Astrophysics of Galaxies";
     list_subjects_text := None;
     list_title_string := Some "Title: A Strong Lensing Survey" |}.

(** ** Facts about the string primitives *)

Section StringFacts.

Lemma lower_char_idem (c : ascii) :
  PyStr.lower_char (PyStr.lower_char c) = PyStr.lower_char c.
Proof.
  destruct c as [[] [] [] [] [] [] [] []]; reflexivity.
Qed.

Lemma lower_idem (s : string) : PyStr.lower (PyStr.lower s) = PyStr.lower s.
Proof.
  induction s as [|c s IH]; simpl; [reflexivity|].
  now rewrite lower_char_idem, IH.
Qed.

Lemma lower_append (a b : string) :
  PyStr.lower (a ++ b) = (PyStr.lower a ++ PyStr.lower b)%string.
Proof.
  induction a as [|c a IH]; simpl; [reflexivity | now rewrite IH].
Qed.

Lemma append_assoc (a b c : string) :
  ((a ++ b) ++ c = a ++ (b ++ c))%string.
Proof.
  induction a as [|x a IH]; simpl; [reflexivity | now rewrite IH].
Qed.

Lemma append_empty_r (a : string) : (a ++ EmptyString)%string = a.
Proof.
  induction a as [|x a IH]; simpl; [reflexivity | now rewrite IH].
Qed.

(** A lower-case text has lower-case suffixes and prefixes. *)
Lemma lower_fixed_suffix (a b : string) :
  PyStr.lower (a ++ b) = (a ++ b)%string -> PyStr.lower b = b.
Proof.
  induction a as [|c a IH]; simpl; intros E; [exact E|].
  injection E as _ E. auto.
Qed.

Lemma lower_fixed_prefix (a b : string) :
  PyStr.lower (a ++ b) = (a ++ b)%string -> PyStr.lower a = a.
Proof.
  induction a as [|c a IH]; simpl; intros E; [reflexivity|].
  injection E as Ec E. rewrite Ec. f_equal. auto.
Qed.

Lemma startswith_spec (s p : string) :
  PyStr.startswith s p = true <-> exists post, s = (p ++ post)%string.
Proof.
  unfold PyStr.startswith. revert s.
  induction p as [|c p IH]; intros s; simpl.
  - split; [intros _; now exists s | intros _; now destruct s].
  - destruct s as [|d s]; simpl.
    + split; [discriminate | intros [post E]; discriminate].
    + destruct (ascii_dec c d) as [->|N].
      * rewrite IH. split; intros [post E]; exists post.
        -- now rewrite E.
        -- now injection E.
      * split; [discriminate|]. intros [post E]. injection E as E1 _.
        now elim N.
Qed.

(** [p in s] holds exactly when [s] splits around a copy of [p]. *)
Lemma contains_spec (s p : string) :
  PyStr.contains s p = true
  <-> exists pre post, s = (pre ++ p ++ post)%string.
Proof.
  induction s as [|c s IH]; cbn [PyStr.contains].
  - rewrite startswith_spec. split.
    + intros [post E]. now exists EmptyString, post.
    + intros [pre [post E]]. destruct pre; [now exists post | discriminate].
  - rewrite orb_true_iff, startswith_spec, IH. split.
    + intros [[post E] | [pre [post E]]].
      * now exists EmptyString, post.
      * exists (String c pre), post. simpl. now rewrite E.
    + intros [pre [post E]]. destruct pre as [|d pre]; simpl in E.
      * left. now exists post.
      * right. injection E as _ E. now exists pre, post.
Qed.

(** On a lower-case text, the test [kw.lower() in text] of the source is
    the case-insensitive substring match. *)
Lemma contains_lower_ci (kw text : string) :
  PyStr.lower text = text ->
  (PyStr.contains text (PyStr.lower kw) = true <-> ci_substring kw text).
Proof.
  intros L. rewrite contains_spec. unfold ci_substring. split.
  - intros [pre [post E]]. exists pre, (PyStr.lower kw), post.
    split; [exact E | apply lower_idem].
  - intros [pre [u [post [E Lu]]]]. exists pre, post.
    rewrite <- Lu. rewrite E in L.
    apply lower_fixed_suffix in L. apply lower_fixed_prefix in L.
    now rewrite L.
Qed.

Lemma clean_title_lower (title_text : option string) :
  PyStr.lower (clean_title_of title_text) = clean_title_of title_text.
Proof.
  unfold clean_title_of. destruct (PyStr.non_empty title_text); [|reflexivity].
  apply lower_idem.
Qed.

Lemma clean_abstract_lower (abstract_text : string) :
  PyStr.lower (clean_abstract_of abstract_text) = clean_abstract_of abstract_text.
Proof. apply lower_idem. Qed.

Lemma non_empty_truthy (o : option string) :
  PyStr.truthy o = false -> PyStr.non_empty o = None.
Proof. unfold PyStr.non_empty. now intros ->. Qed.

Lemma non_empty_some (o : option string) (t : string) :
  PyStr.non_empty o = Some t -> o = Some t /\ PyStr.truthy o = true.
Proof.
  unfold PyStr.non_empty. destruct (PyStr.truthy o) eqn:T; [|discriminate].
  intros ->. now split.
Qed.

End StringFacts.

(** ** Facts about the generator monad *)

Create HintDb frame.

Section GenFacts.

Lemma read_only_ret {A} (a : A) : read_only (ret a).
Proof. intros s. reflexivity. Qed.

Lemma read_only_emit (e : Event) : read_only (emit e).
Proof. intros s. reflexivity. Qed.

Lemma read_only_raise {A} (e : Exn) : read_only (@raise A e).
Proof. intros s. reflexivity. Qed.

Lemma read_only_self {A} (f : Spider -> A) : read_only (self f).
Proof. intros s. reflexivity. Qed.

Lemma read_only_bind {A B} (m : Gen A) (k : A -> Gen B) :
  read_only m -> (forall a, read_only (k a)) -> read_only (bind m k).
Proof.
  intros Hm Hk s. unfold bind.
  destruct (completion (m s)) as [a|e]; simpl.
  - now rewrite Hk, Hm.
  - apply Hm.
Qed.

Lemma read_only_int (str : string) : read_only (int_ str).
Proof.
  unfold int_. destruct (PyStr.int str); [apply read_only_ret | apply read_only_raise].
Qed.

Lemma read_only_for_each {A} (xs : list A) (body : A -> Gen unit) :
  (forall x, read_only (body x)) -> read_only (for_each xs body).
Proof.
  intros Hb. induction xs as [|x xs IH]; simpl.
  - apply read_only_ret.
  - apply read_only_bind; auto.
Qed.

(** Running [m] and then [k] when [m] is known. *)
Lemma bind_returned {A B} (m : Gen A) (k : A -> Gen B) s t a :
  m s = {| final := s; trace := t; completion := Returned a |} ->
  bind m k s = {| final := final (k a s); trace := t ++ trace (k a s);
                  completion := completion (k a s) |}.
Proof. intros E. unfold bind. rewrite E. reflexivity. Qed.

Lemma bind_raised {A B} (m : Gen A) (k : A -> Gen B) s t e :
  m s = {| final := s; trace := t; completion := Raised e |} ->
  bind m k s = {| final := s; trace := t; completion := Raised e |}.
Proof. intros E. unfold bind. rewrite E. reflexivity. Qed.

Lemma run_eta {A} (r : Run A) :
  r = {| final := final r; trace := trace r; completion := completion r |}.
Proof. now destruct r. Qed.

Lemma int_returns (str : string) (n : Z) s :
  PyStr.int str = Some n ->
  int_ str s = {| final := s; trace := []; completion := Returned n |}.
Proof. unfold int_. now intros ->. Qed.

Lemma int_raises (str : string) s :
  PyStr.int str = None ->
  int_ str s = {| final := s; trace := []; completion := Raised ValueError |}.
Proof. unfold int_. now intros ->. Qed.

End GenFacts.

#[export] Hint Resolve read_only_ret read_only_emit read_only_raise
  read_only_self read_only_int : frame.
#[export] Hint Extern 2 (read_only (bind _ _)) =>
  apply read_only_bind; [| intros ] : frame.
#[export] Hint Extern 2 (read_only (for_each _ _)) =>
  apply read_only_for_each; intros : frame.

(** ** The keyword loops *)

Section KeywordLoops.

(** Either some pattern is the first to hit, or none hits. *)
Lemma scan_cases (text : string) (kws : list string) :
  (exists pre kw post, kws = pre ++ kw :: post
      /\ Forall (fun k => hits text k = false) pre /\ hits text kw = true)
  \/ Forall (fun k => hits text k = false) kws.
Proof.
  induction kws as [|k kws IH].
  - right. constructor.
  - destruct (hits text k) eqn:Hk.
    + left. exists [], k, kws. repeat split; auto.
    + destruct IH as [(pre & kw & post & -> & Hpre & Hkw) | Hall].
      * left. exists (k :: pre), kw, post. repeat split; auto.
      * right. now constructor.
Qed.

Lemma title_loop_hit pre kw post text s :
  Forall (fun k => hits text k = false) pre -> hits text kw = true ->
  title_loop (pre ++ kw :: post) text s
  = {| final := s; trace := tests (pre ++ [kw]) text; completion := Returned true |}.
Proof.
  unfold hits. intros Hpre Hkw. induction Hpre as [|k pre Hk _ IH]; simpl.
  - unfold bind; simpl. now rewrite Hkw.
  - unfold bind; simpl. rewrite Hk. fold (title_loop (pre ++ kw :: post) text s).
    now rewrite IH.
Qed.

Lemma title_loop_miss kws text s :
  Forall (fun k => hits text k = false) kws ->
  title_loop kws text s
  = {| final := s; trace := tests kws text; completion := Returned false |}.
Proof.
  unfold hits. intros Hall. induction Hall as [|k kws Hk _ IH]; simpl.
  - reflexivity.
  - unfold bind; simpl. rewrite Hk. now rewrite IH.
Qed.

(** The two loops are the same computation. *)
Lemma loops_agree kws text s : abstract_loop kws text s = title_loop kws text s.
Proof.
  induction kws as [|k kws IH]; simpl; [reflexivity|].
  unfold bind; simpl.
  destruct (PyStr.contains text (PyStr.lower k)); [reflexivity|].
  now rewrite IH.
Qed.

Lemma read_only_title_loop kws text : read_only (title_loop kws text).
Proof.
  induction kws as [|k kws IH]; simpl; auto with frame.
  apply read_only_bind; auto with frame. intros _.
  destruct (PyStr.contains text (PyStr.lower k)); auto with frame.
Qed.

Lemma is_title_interested_hit pre kw post text s :
  my_keywords s = pre ++ kw :: post ->
  Forall (fun k => hits text k = false) pre -> hits text kw = true ->
  is_title_interested text s
  = {| final := s; trace := tests (pre ++ [kw]) text; completion := Returned true |}.
Proof.
  intros E Hpre Hkw. unfold is_title_interested, bind, self; simpl.
  rewrite E, (title_loop_hit pre kw post text s Hpre Hkw). reflexivity.
Qed.

Lemma is_title_interested_miss text s :
  Forall (fun k => hits text k = false) (my_keywords s) ->
  is_title_interested text s
  = {| final := s; trace := tests (my_keywords s) text;
       completion := Returned false |}.
Proof.
  intros Hall. unfold is_title_interested, bind, self; simpl.
  rewrite (title_loop_miss _ text s Hall). reflexivity.
Qed.

Lemma is_abstract_interested_eq text s :
  is_abstract_interested text s = is_title_interested text s.
Proof.
  unfold is_abstract_interested, is_title_interested, bind, self; simpl.
  now rewrite loops_agree.
Qed.

(** From the boolean test to the specification's words, on a lower-case
    text. *)
Lemma misses_no_keyword kws text :
  PyStr.lower text = text ->
  (Forall (fun k => hits text k = false) kws <-> no_keyword kws text).
Proof.
  intros L. unfold no_keyword. rewrite !Forall_forall.
  split; intros Hall k Hin; specialize (Hall k Hin).
  - rewrite <- (contains_lower_ci k text L). unfold hits in Hall. now rewrite Hall.
  - unfold hits. destruct (PyStr.contains text (PyStr.lower k)) eqn:C; [|reflexivity].
    apply (contains_lower_ci k text L) in C. contradiction.
Qed.

End KeywordLoops.

(** ** Stage 1: category gate and title test *)

Section Stage1.
Context `{SetOrder}.
Context `{RequestCheck}.

Lemma items_of_tests kws text : items_of (tests kws text) = [].
Proof. induction kws; simpl; auto. Qed.

Lemma requests_of_tests kws text : requests_of (tests kws text) = [].
Proof. induction kws; simpl; auto. Qed.

Lemma logs_of_tests kws text : logs_of (tests kws text) = [].
Proof. induction kws; simpl; auto. Qed.

Lemma tested_of_tests kws text : tested_of (tests kws text) = kws.
Proof. induction kws; simpl; [reflexivity | now f_equal]. Qed.

Lemma title_stage_hit base link arxiv_id item dd pre kw post s :
  let title := clean_title_of (list_title_string dd) in
  my_keywords s = pre ++ kw :: post ->
  Forall (fun k => hits title k = false) pre -> hits title kw = true ->
  title_stage base link arxiv_id item dd s
  = {| final := s;
       trace := tests (pre ++ [kw]) title
                ++ [Log INFO (title_hit_message arxiv_id title); YieldItem item];
       completion := Returned tt |}.
Proof.
  intros title E Hpre Hkw. unfold title_stage.
  rewrite (bind_returned _ _ s _ true
             (is_title_interested_hit pre kw post title s E Hpre Hkw)).
  reflexivity.
Qed.

Lemma title_stage_miss base link arxiv_id item dd s :
  let title := clean_title_of (list_title_string dd) in
  request_accepted base link = true ->
  Forall (fun k => hits title k = false) (my_keywords s) ->
  title_stage base link arxiv_id item dd s
  = {| final := s;
       trace := tests (my_keywords s) title
                ++ [YieldRequest (escalation base link item title)];
       completion := Returned tt |}.
Proof.
  intros title Ha Hall. unfold title_stage.
  rewrite (bind_returned _ _ s _ false (is_title_interested_miss title s Hall)).
  cbv beta iota. rewrite Ha. reflexivity.
Qed.

Lemma title_stage_refused base link arxiv_id item dd s :
  let title := clean_title_of (list_title_string dd) in
  request_accepted base link = false ->
  Forall (fun k => hits title k = false) (my_keywords s) ->
  title_stage base link arxiv_id item dd s
  = {| final := s; trace := tests (my_keywords s) title;
       completion := Raised ValueError |}.
Proof.
  intros title Ha Hall. unfold title_stage.
  rewrite (bind_returned _ _ s _ false (is_title_interested_miss title s Hall)).
  cbv beta iota. rewrite Ha. cbn [raise final trace completion].
  now rewrite app_nil_r.
Qed.

(** The category test of the source, in terms of membership. *)
Lemma intersection_empty (xs ys : list string) :
  non_empty_list (intersection xs ys) = false
  <-> forall c, In c xs -> ~ In c ys.
Proof.
  unfold intersection, mem. split.
  - intros E c Hx Hy.
    assert (Hin : In c (filter (fun x => existsb (String.eqb x) ys) xs)).
    { apply filter_In. split; [exact Hx|]. apply existsb_exists.
      exists c. split; [exact Hy | apply String.eqb_refl]. }
    destruct (filter _ xs); [contradiction | discriminate].
  - intros Hd.
    destruct (filter (fun x => existsb (String.eqb x) ys) xs) as [|c l] eqn:F;
      [reflexivity|].
    assert (Hin : In c (filter (fun x => existsb (String.eqb x) ys) xs))
      by (rewrite F; now left).
    apply filter_In in Hin as [Hx Hy]. apply existsb_exists in Hy as [y [Hy E]].
    apply String.eqb_eq in E. subst y. now elim (Hd c Hx).
Qed.

Lemma category_stage_skip base link arxiv_id dd s :
  PyStr.truthy (subjects_text_of dd) = true ->
  non_empty_list (intersection (categories_of (subjects_text_of dd))
                    (target_categories s)) = false ->
  category_stage base link arxiv_id dd s
  = {| final := s; trace := [Log DEBUG (category_skip_message arxiv_id)];
       completion := Returned tt |}.
Proof.
  intros T E. unfold category_stage, bind, self; simpl.
  rewrite E, T. reflexivity.
Qed.

Lemma category_stage_pass base link arxiv_id dd s :
  passes_gate (target_categories s) dd = true ->
  category_stage base link arxiv_id dd s
  = title_stage base link arxiv_id (item_of arxiv_id dd) dd s.
Proof.
  unfold passes_gate. intros P. unfold category_stage, bind, self; simpl.
  replace (negb _ && _) with false.
  - simpl. fold (item_of arxiv_id dd). symmetry. apply run_eta.
  - symmetry. apply orb_true_iff in P as [P|P].
    + apply negb_true_iff in P. rewrite P. apply andb_false_r.
    + rewrite P. reflexivity.
Qed.

End Stage1.

(** C1. Stage-1 title decision: for an entry that passes
    the category gate, the normalized title is matched
    case-insensitively, as a substring test, against the keyword list in
    list order, stopping at the first hit; a hit yields the item at once
    with no abstract-page request; with no hit the abstract-page request
    is issued, instead of yielding or dropping the entry, when
    [response.urljoin] and [scrapy.Request] accept the abstract link,
    and when they refuse it their [ValueError] ends the run with nothing
    yielded. *)
Theorem stage1_title_decision `{SetOrder} `{RequestCheck}
    (base link arxiv_id : string) (dd : Dd) (s : Spider) :
  passes_gate (target_categories s) dd = true ->
  title_decision s base link arxiv_id (item_of arxiv_id dd)
    (clean_title_of (list_title_string dd))
    (category_stage base link arxiv_id dd s).
Proof.
  intros P. rewrite (category_stage_pass _ _ _ _ _ P).
  set (title := clean_title_of (list_title_string dd)).
  assert (L : PyStr.lower title = title) by apply clean_title_lower.
  unfold title_decision.
  destruct (scan_cases title (my_keywords s))
    as [(pre & kw & post & E & Hpre & Hkw) | Hall].
  - rewrite (title_stage_hit base link arxiv_id _ dd pre kw post s E Hpre Hkw).
    fold title. cbn [trace completion]. left. exists pre, kw.
    split; [|split; [reflexivity | split; [reflexivity|]]].
    + split; [now exists post|]. split.
      * now apply misses_no_keyword.
      * now apply (contains_lower_ci kw title L).
    + unfold tested_of, items_of, requests_of. rewrite !flat_map_app.
      fold (tested_of (tests (pre ++ [kw]) title)).
      fold (items_of (tests (pre ++ [kw]) title)).
      fold (requests_of (tests (pre ++ [kw]) title)).
      rewrite tested_of_tests, items_of_tests, requests_of_tests. simpl.
      now rewrite app_nil_r.
  - assert (Hno : no_keyword (my_keywords s) title)
      by now apply misses_no_keyword.
    destruct (request_accepted base link) eqn:Ha.
    + rewrite (title_stage_miss base link arxiv_id _ dd s Ha Hall).
      fold title. cbn [trace completion]. right. left.
      split; [exact Hno|]. do 3 (split; [reflexivity|]).
      unfold tested_of, items_of, requests_of. rewrite !flat_map_app.
      fold (tested_of (tests (my_keywords s) title)).
      fold (items_of (tests (my_keywords s) title)).
      fold (requests_of (tests (my_keywords s) title)).
      rewrite tested_of_tests, items_of_tests, requests_of_tests. simpl.
      now rewrite app_nil_r.
    + rewrite (title_stage_refused base link arxiv_id _ dd s Ha Hall).
      fold title. cbn [trace completion]. right. right.
      split; [exact Hno|]. do 3 (split; [reflexivity|]).
      now rewrite tested_of_tests, items_of_tests, requests_of_tests.
Qed.



(** ** Stage 2: the abstract page *)

Section Stage2.

Lemma stage2_hit (m : Meta) (text : string) pre kw post s :
  let abstract := clean_abstract_of text in
  text <> EmptyString ->
  my_keywords s = pre ++ kw :: post ->
  Forall (fun k => hits abstract k = false) pre -> hits abstract kw = true ->
  parse_abstract_page {| response_meta := m; blockquote_abstract := Some text |} s
  = {| final := s;
       trace := tests (pre ++ [kw]) abstract
                ++ [Log INFO (abstract_hit_message (id (item_data m)) (title_prefix m));
                    YieldItem (item_data m)];
       completion := Returned tt |}.
Proof.
  intros abstract Hne E Hpre Hkw. unfold parse_abstract_page. simpl.
  destruct text as [|c text]; [now elim Hne|]. simpl.
  assert (R := is_title_interested_hit pre kw post abstract s E Hpre Hkw).
  rewrite <- is_abstract_interested_eq in R.
  rewrite (bind_returned _ _ s _ true R). reflexivity.
Qed.

Lemma stage2_miss (m : Meta) (text : string) s :
  let abstract := clean_abstract_of text in
  text <> EmptyString ->
  Forall (fun k => hits abstract k = false) (my_keywords s) ->
  parse_abstract_page {| response_meta := m; blockquote_abstract := Some text |} s
  = {| final := s;
       trace := tests (my_keywords s) abstract
                ++ [Log INFO (keyword_skip_message (id (item_data m)))];
       completion := Returned tt |}.
Proof.
  intros abstract Hne Hall. unfold parse_abstract_page. simpl.
  destruct text as [|c text]; [now elim Hne|]. simpl.
  assert (R := is_title_interested_miss abstract s Hall).
  rewrite <- is_abstract_interested_eq in R.
  rewrite (bind_returned _ _ s _ false R). reflexivity.
Qed.

Lemma stage2_no_abstract (m : Meta) (page : option string) s :
  PyStr.truthy page = false ->
  parse_abstract_page {| response_meta := m; blockquote_abstract := page |} s
  = {| final := s;
       trace := [Log WARNING (no_abstract_message (id (item_data m)))];
       completion := Returned tt |}.
Proof.
  intros T. unfold parse_abstract_page. simpl.
  now rewrite (non_empty_truthy _ T).
Qed.

Lemma flat_map_tests_tail {B} (f : Event -> list B) kws text tail :
  (forall kw, f (Tested kw text) = []) ->
  flat_map f (tests kws text ++ tail) = flat_map f tail.
Proof.
  intros Hf. induction kws as [|k kws IH]; simpl; [reflexivity|].
  now rewrite Hf, IH.
Qed.

End Stage2.

(** C2. Stage-2 escalation correctness: when the abstract page yields an
    abstract text, the carried item is yielded exactly when some keyword
    pattern occurs, up to letter case, in the normalized abstract; with
    no such pattern nothing is yielded; in both cases the callback
    returns normally and issues no further request. *)
Theorem stage2_emits_iff_keyword
    (m : Meta) (text : string) (s : Spider) :
  text <> EmptyString ->
  let abstract := clean_abstract_of text in
  let r := parse_abstract_page
             {| response_meta := m; blockquote_abstract := Some text |} s in
  completion r = Returned tt
  /\ requests_of (trace r) = []
  /\ (In (YieldItem (item_data m)) (trace r)
      <-> exists kw, In kw (my_keywords s) /\ ci_substring kw abstract)
  /\ ((exists kw, In kw (my_keywords s) /\ ci_substring kw abstract) ->
      items_of (trace r) = [item_data m])
  /\ (no_keyword (my_keywords s) abstract -> items_of (trace r) = []).
Proof.
  intros Hne abstract r.
  assert (L : PyStr.lower abstract = abstract) by apply clean_abstract_lower.
  destruct (scan_cases abstract (my_keywords s))
    as [(pre & kw & post & E & Hpre & Hkw) | Hall].
  - assert (Hex : exists k, In k (my_keywords s) /\ ci_substring k abstract).
    { exists kw. split.
      - rewrite E. apply in_or_app. right. now left.
      - now apply (contains_lower_ci kw abstract L). }
    subst r. rewrite (stage2_hit m text pre kw post s Hne E Hpre Hkw).
    fold abstract. simpl. split; [reflexivity|].
    unfold requests_of, items_of.
    rewrite !flat_map_tests_tail by reflexivity. simpl.
    split; [reflexivity|]. split; [|split; [reflexivity|]].
    + split; [intros _; exact Hex|]. intros _.
      apply in_or_app. right. right. now left.
    + intros Hno. destruct Hex as [k [Hin Hci]].
      unfold no_keyword in Hno. rewrite Forall_forall in Hno.
      now elim (Hno k Hin).
  - assert (Hno : no_keyword (my_keywords s) abstract)
      by now apply misses_no_keyword.
    subst r. rewrite (stage2_miss m text s Hne Hall).
    fold abstract. simpl. split; [reflexivity|].
    unfold requests_of, items_of.
    rewrite !flat_map_tests_tail by reflexivity. simpl.
    split; [reflexivity|]. split; [|split; [|reflexivity]].
    + split.
      * intros Hin. apply in_app_or in Hin as [Hin|Hin].
        -- unfold tests in Hin. apply in_map_iff in Hin as [k [Hk _]].
           discriminate.
        -- destruct Hin as [Hin|[]]. discriminate.
      * intros [k [Hin Hci]]. unfold no_keyword in Hno.
        rewrite Forall_forall in Hno. now elim (Hno k Hin).
    + intros [k [Hin Hci]]. unfold no_keyword in Hno.
      rewrite Forall_forall in Hno. now elim (Hno k Hin).
Qed.

(** C5. Shared keyword predicate: on every text and in every state of
    the spider, the keyword test of stage 1 and the keyword test of
    stage 2 are the same run: the same patterns of the same list tried
    in the same order against the same text, stopping at the same first
    hit, with the same result. *)
Theorem keyword_test_shared (text : string) (s : Spider) :
  is_abstract_interested text s = is_title_interested text s
  /\ (forall kws, abstract_loop kws text s = title_loop kws text s)
  /\ tested_of (trace (is_abstract_interested text s))
     = tested_of (trace (is_title_interested text s))
  /\ completion (is_abstract_interested text s)
     = completion (is_title_interested text s).
Proof.
  split; [apply is_abstract_interested_eq|].
  split; [intros kws; apply loops_agree|].
  now rewrite is_abstract_interested_eq.
Qed.

(** C9. Missing-abstract handling: when the abstract page yields no
    abstract text, stage 2 yields no item and no request, returns
    normally, and logs one record at warning level, whereas a
    keyword-mismatch skip logs one record at info level. *)
Theorem missing_abstract_warns
    (m : Meta) (page : option string) (s : Spider) :
  PyStr.truthy page = false ->
  let r := parse_abstract_page
             {| response_meta := m; blockquote_abstract := page |} s in
  completion r = Returned tt
  /\ items_of (trace r) = []
  /\ requests_of (trace r) = []
  /\ logs_of (trace r) = [(WARNING, no_abstract_message (id (item_data m)))]
  /\ forall text,
       text <> EmptyString -> no_keyword (my_keywords s) (clean_abstract_of text) ->
       let r' := parse_abstract_page
                   {| response_meta := m; blockquote_abstract := Some text |} s in
       logs_of (trace r') = [(INFO, keyword_skip_message (id (item_data m)))]
       /\ logs_of (trace r') <> logs_of (trace r).
Proof.
  intros T r. subst r. rewrite (stage2_no_abstract m page s T). simpl.
  do 4 (split; [reflexivity|]).
  intros text Hne Hno.
  apply misses_no_keyword in Hno; [|apply clean_abstract_lower].
  rewrite (stage2_miss m text s Hne Hno). simpl.
  unfold logs_of. rewrite flat_map_tests_tail by reflexivity. simpl.
  split; [reflexivity | discriminate].
Qed.

(** ** The listing parser *)

Section Listing.
Context `{SetOrder}.
Context `{RequestCheck}.

(** The first loop logs and yields nothing; it returns the integer
    suffixes in order, or raises at the first text [int] rejects. *)
Lemma collect_anchors_run (lis : list (option string)) (acc : list Z) s :
  (exists ns,
      Forall2 (fun str n => PyStr.int str = Some n) (anchor_suffixes lis) ns
      /\ collect_anchors lis acc s
         = {| final := s; trace := []; completion := Returned (acc ++ ns) |})
  \/ collect_anchors lis acc s
     = {| final := s; trace := []; completion := Raised ValueError |}.
Proof.
  revert acc. induction lis as [|li lis IH]; intros acc; simpl.
  - left. exists []. split; [constructor | now rewrite app_nil_r].
  - destruct (PyStr.non_empty li) as [href|]; [|apply IH].
    destruct (PyStr.contains href "item"); [|apply IH].
    destruct (PyStr.int (PyStr.last_field (PyStr.split href "item")))
      as [n|] eqn:En.
    + rewrite (bind_returned _ _ s [] n (int_returns _ n s En)). simpl.
      destruct (IH (acc ++ [n])) as [(ns & Hns & ->) | ->]; simpl.
      * left. exists (n :: ns). split; [now constructor|].
        now rewrite <- app_assoc.
      * now right.
    + right. now rewrite (bind_raised _ _ s [] ValueError (int_raises _ s En)).
Qed.

Lemma past_bound_last (init : list Z) (bound paper_id : Z) :
  past_bound (init ++ [bound]) paper_id = (bound <=? paper_id)%Z.
Proof.
  unfold past_bound. rewrite last_last.
  destruct init; reflexivity.
Qed.

Lemma parse_dt_no_anchor base anchors paper_dt s :
  PyStr.non_empty (item_anchor_name paper_dt) = None ->
  parse_dt base anchors paper_dt s = ret tt s.
Proof. intros E. unfold parse_dt. now rewrite E. Qed.

Lemma parse_dt_bad_index base anchors paper_dt paper_anchor s :
  PyStr.non_empty (item_anchor_name paper_dt) = Some paper_anchor ->
  PyStr.int (PyStr.last_field (PyStr.split paper_anchor "item")) = None ->
  parse_dt base anchors paper_dt s = raise ValueError s.
Proof.
  intros E En. unfold parse_dt. rewrite E.
  now rewrite (bind_raised _ _ s [] ValueError (int_raises _ s En)).
Qed.

Lemma parse_dt_indexed base anchors paper_dt paper_id s :
  paper_id_of paper_dt = Some paper_id ->
  parse_dt base anchors paper_dt s
  = if past_bound anchors paper_id then ret tt s
    else entry_stage base paper_dt s.
Proof.
  unfold paper_id_of, parse_dt.
  destruct (PyStr.non_empty (item_anchor_name paper_dt)) as [a|]; [|discriminate].
  intros En. rewrite (bind_returned _ _ s [] paper_id (int_returns _ _ s En)).
  destruct (past_bound anchors paper_id); [reflexivity|].
  simpl. symmetry. apply run_eta.
Qed.

(** An entry whose body does nothing can be taken out of the loop. *)
Lemma for_each_skip {A} (body : A -> Gen unit) (x : A) before after s :
  (forall s', body x s' = ret tt s') ->
  for_each (before ++ x :: after) body s = for_each (before ++ after) body s.
Proof.
  intros Hx. revert s. induction before as [|b before IH]; intros s; simpl.
  - unfold bind. rewrite Hx. simpl. symmetry. apply run_eta.
  - unfold bind. destruct (completion (body b s)); [|reflexivity].
    now rewrite IH.
Qed.

Lemma parse_run (response : ListingResponse) (anchors : list Z) s :
  collect_anchors (dlpage_li_hrefs response) [] s
  = {| final := s; trace := []; completion := Returned anchors |} ->
  parse response s
  = for_each (dl_dts response) (parse_dt (response_url response) anchors) s.
Proof.
  intros E. unfold parse. rewrite (bind_returned _ _ s [] anchors E).
  simpl. symmetry. apply run_eta.
Qed.

Lemma collect_anchors_returned (lis : list (option string)) (anchors : list Z) s :
  completion (collect_anchors lis [] s) = Returned anchors ->
  Forall2 (fun str n => PyStr.int str = Some n) (anchor_suffixes lis) anchors
  /\ collect_anchors lis [] s
     = {| final := s; trace := []; completion := Returned anchors |}.
Proof.
  intros C. destruct (collect_anchors_run lis [] s) as [(ns & Hns & E) | E];
    rewrite E in C; simpl in C; [|discriminate].
  injection C as <-. now split.
Qed.

End Listing.

(** C4. Boundary exclusivity: the anchors are the integer suffixes of
    the navigation links in order; when [bound] is their last element,
    an entry whose position index is [bound] or more yields nothing and
    logs nothing, and the page parses as if the entry were not there;
    when there are no anchors, no entry is left out for its position. *)
Theorem boundary_exclusivity `{SetOrder} `{RequestCheck}
    (response : ListingResponse) (s : Spider) (anchors : list Z) :
  completion (collect_anchors (dlpage_li_hrefs response) [] s)
  = Returned anchors ->
  Forall2 (fun str n => PyStr.int str = Some n)
    (anchor_suffixes (dlpage_li_hrefs response)) anchors
  /\ (forall init bound paper_dt paper_id,
         anchors = init ++ [bound] ->
         paper_id_of paper_dt = Some paper_id ->
         (bound <= paper_id)%Z ->
         parse_dt (response_url response) anchors paper_dt s
         = {| final := s; trace := []; completion := Returned tt |}
         /\ forall before after,
              dl_dts response = before ++ paper_dt :: after ->
              parse response s
              = parse (with_dts response (before ++ after)) s)
  /\ (anchors = [] ->
      forall paper_dt paper_id,
        paper_id_of paper_dt = Some paper_id ->
        parse_dt (response_url response) anchors paper_dt s
        = entry_stage (response_url response) paper_dt s).
Proof.
  intros C. apply collect_anchors_returned in C as [Hsuf E].
  split; [exact Hsuf|]. split.
  - intros init bound paper_dt paper_id -> Hid Hle.
    assert (Hskip : forall s',
               parse_dt (response_url response) (init ++ [bound]) paper_dt s'
               = ret tt s').
    { intros s'. rewrite (parse_dt_indexed _ _ _ _ _ Hid), past_bound_last.
      now apply Z.leb_le in Hle as ->. }
    split; [apply Hskip|].
    intros before after Hdts.
    rewrite (parse_run response _ s E).
    rewrite (parse_run (with_dts response (before ++ after)) _ s E).
    rewrite Hdts. simpl. now apply for_each_skip.
  - intros -> paper_dt paper_id Hid.
    now rewrite (parse_dt_indexed _ _ _ _ _ Hid).
Qed.

(** An entry below the bound is not left out either. *)
Lemma below_bound_kept `{SetOrder} `{RequestCheck}
    (base : string) (init : list Z) (bound paper_id : Z) (paper_dt : Dt) s :
  paper_id_of paper_dt = Some paper_id -> (paper_id < bound)%Z ->
  parse_dt base (init ++ [bound]) paper_dt s = entry_stage base paper_dt s.
Proof.
  intros Hid Hlt. rewrite (parse_dt_indexed _ _ _ _ _ Hid), past_bound_last.
  now apply Z.leb_gt in Hlt as ->.
Qed.

(** ** The callbacks leave the spider as it is *)

Section Frame.
Context `{SetOrder}.
Context `{RequestCheck}.

Lemma read_only_is_title_interested text : read_only (is_title_interested text).
Proof.
  unfold is_title_interested. apply read_only_bind; auto with frame.
  intros kws. apply read_only_title_loop.
Qed.

Lemma read_only_is_abstract_interested text :
  read_only (is_abstract_interested text).
Proof.
  intros s. rewrite is_abstract_interested_eq.
  apply read_only_is_title_interested.
Qed.

Lemma read_only_title_stage base link arxiv_id item dd :
  read_only (title_stage base link arxiv_id item dd).
Proof.
  unfold title_stage. apply read_only_bind.
  - apply read_only_is_title_interested.
  - intros [|]; auto with frame.
    destruct (request_accepted base link); auto with frame.
Qed.

Lemma read_only_category_stage base link arxiv_id dd :
  read_only (category_stage base link arxiv_id dd).
Proof.
  unfold category_stage. apply read_only_bind; auto with frame.
  intros targets. destruct (_ && _); auto with frame.
  apply read_only_title_stage.
Qed.

Lemma read_only_entry_stage base paper_dt : read_only (entry_stage base paper_dt).
Proof.
  unfold entry_stage.
  destruct (PyStr.non_empty (abstract_href paper_dt)); auto with frame.
  destruct (following_dd paper_dt); auto with frame.
  apply read_only_category_stage.
Qed.

Lemma read_only_parse_dt base anchors paper_dt :
  read_only (parse_dt base anchors paper_dt).
Proof.
  unfold parse_dt.
  destruct (PyStr.non_empty (item_anchor_name paper_dt)); auto with frame.
  apply read_only_bind; auto with frame.
  intros paper_id. destruct (past_bound anchors paper_id); auto with frame.
  apply read_only_entry_stage.
Qed.

Lemma read_only_collect_anchors lis acc : read_only (collect_anchors lis acc).
Proof.
  intros s. destruct (collect_anchors_run lis acc s) as [(ns & _ & ->) | ->];
    reflexivity.
Qed.

Lemma read_only_parse response : read_only (parse response).
Proof.
  unfold parse. apply read_only_bind.
  - apply read_only_collect_anchors.
  - intros anchors. apply read_only_for_each. intros paper_dt.
    apply read_only_parse_dt.
Qed.

Lemma read_only_parse_abstract_page response :
  read_only (parse_abstract_page response).
Proof.
  unfold parse_abstract_page.
  destruct (PyStr.non_empty (blockquote_abstract response)); auto with frame.
  apply read_only_bind.
  - apply read_only_is_abstract_interested.
  - intros [|]; auto with frame.
Qed.

Lemma read_only_answer fetch rq : read_only (answer fetch rq).
Proof.
  unfold answer. destruct (fetch (url rq)); auto with frame.
  apply read_only_parse_abstract_page.
Qed.

Lemma read_only_with_answers fetch m :
  read_only m -> read_only (with_answers fetch m).
Proof.
  intros Hm s. unfold with_answers. simpl.
  rewrite (read_only_for_each _ _ (read_only_answer fetch)). apply Hm.
Qed.

End Frame.

(** C8. Parse determinism: parsing a listing page leaves the spider as
    it was, so a second parse of the same page, started where the first
    one ended, is the same run: the same items and the same requests in
    the same order, and the same completion. *)
Theorem parse_idempotent `{SetOrder} `{RequestCheck} (response : ListingResponse) (s : Spider) :
  let r1 := parse response s in
  let r2 := parse response (final r1) in
  final r1 = s
  /\ r2 = r1
  /\ items_of (trace r2) = items_of (trace r1)
  /\ requests_of (trace r2) = requests_of (trace r1)
  /\ completion r2 = completion r1.
Proof.
  intros r1 r2. subst r1 r2. rewrite (read_only_parse response s).
  repeat split; reflexivity.
Qed.

(** Nor does any other callback run in between change a later parse. *)
Lemma parse_after_callbacks `{SetOrder} `{RequestCheck} (fetch : Fetch)
    (other response : ListingResponse) (page : AbstractResponse) (s : Spider) :
  parse response (final (crawl fetch other s)) = parse response s
  /\ parse response (final (parse_abstract_page page s)) = parse response s.
Proof.
  split.
  - unfold crawl.
    now rewrite (read_only_with_answers fetch _ (read_only_parse other) s).
  - now rewrite (read_only_parse_abstract_page page s).
Qed.

(** ** At most one item per entry *)

Section Emission.
Context `{SetOrder}.
Context `{RequestCheck}.

Lemma title_stage_outcome base link arxiv_id item dd s :
  entry_outcome (trace (title_stage base link arxiv_id item dd s)).
Proof.
  set (title := clean_title_of (list_title_string dd)).
  destruct (scan_cases title (my_keywords s))
    as [(pre & kw & post & E & Hpre & Hkw) | Hall].
  - rewrite (title_stage_hit base link arxiv_id item dd pre kw post s E Hpre Hkw).
    right. left. exists item. simpl. unfold items_of, requests_of.
    rewrite !flat_map_tests_tail by reflexivity. now split.
  - destruct (request_accepted base link) eqn:Ha.
    + rewrite (title_stage_miss base link arxiv_id item dd s Ha Hall).
      right. right. eexists. simpl. unfold items_of, requests_of.
      rewrite !flat_map_tests_tail by reflexivity. now split.
    + rewrite (title_stage_refused base link arxiv_id item dd s Ha Hall).
      left. cbn [trace]. now rewrite items_of_tests, requests_of_tests.
Qed.

Lemma category_stage_outcome base link arxiv_id dd s :
  entry_outcome (trace (category_stage base link arxiv_id dd s)).
Proof.
  destruct (passes_gate (target_categories s) dd) eqn:P.
  - rewrite (category_stage_pass _ _ _ _ _ P). apply title_stage_outcome.
  - unfold passes_gate in P. apply orb_false_iff in P as [T E].
    apply negb_false_iff in T. rewrite (category_stage_skip _ _ _ _ _ T E).
    left. now split.
Qed.

Lemma parse_dt_outcome base anchors paper_dt s :
  entry_outcome (trace (parse_dt base anchors paper_dt s)).
Proof.
  assert (Hnone : entry_outcome []) by (left; now split).
  destruct (PyStr.non_empty (item_anchor_name paper_dt)) as [a|] eqn:Ea.
  - destruct (PyStr.int (PyStr.last_field (PyStr.split a "item")))
      as [n|] eqn:En.
    + assert (Hid : paper_id_of paper_dt = Some n)
        by (unfold paper_id_of; now rewrite Ea).
      rewrite (parse_dt_indexed _ _ _ _ _ Hid).
      destruct (past_bound anchors n); [exact Hnone|].
      unfold entry_stage.
      destruct (PyStr.non_empty (abstract_href paper_dt)); [|exact Hnone].
      destruct (following_dd paper_dt); [|exact Hnone].
      apply category_stage_outcome.
    + now rewrite (parse_dt_bad_index _ _ _ _ _ Ea En).
  - now rewrite (parse_dt_no_anchor _ _ _ _ Ea).
Qed.

(** Stage 2 never requests anything and yields at most the carried item. *)
Lemma stage2_outcome (response : AbstractResponse) s :
  let t := trace (parse_abstract_page response s) in
  requests_of t = []
  /\ (items_of t = [] \/ items_of t = [item_data (response_meta response)]).
Proof.
  destruct response as [m page]. simpl.
  destruct (PyStr.truthy page) eqn:T.
  - destruct page as [[|c text]|]; try discriminate.
    assert (Hne : String c text <> EmptyString) by discriminate.
    destruct (scan_cases (clean_abstract_of (String c text)) (my_keywords s))
      as [(pre & kw & post & E & Hpre & Hkw) | Hall].
    + rewrite (stage2_hit m _ pre kw post s Hne E Hpre Hkw). simpl.
      unfold items_of, requests_of.
      rewrite !flat_map_tests_tail by reflexivity. split; [reflexivity|now right].
    + rewrite (stage2_miss m _ s Hne Hall). simpl.
      unfold items_of, requests_of.
      rewrite !flat_map_tests_tail by reflexivity. split; [reflexivity|now left].
  - rewrite (stage2_no_abstract m page s T). simpl. split; [reflexivity|now left].
Qed.

Lemma answer_items fetch rq s :
  length (items_of (trace (answer fetch rq s))) <= 1.
Proof.
  unfold answer. destruct (fetch (url rq)) as [page|]; [|simpl; lia].
  destruct (stage2_outcome
              {| response_meta := meta rq; blockquote_abstract := page |} s)
    as [_ [-> | ->]]; simpl; lia.
Qed.

Lemma trace_bind_ret {A} (m : Gen A) s :
  trace (bind m (fun _ => ret tt) s) = trace (m s).
Proof.
  unfold bind. destruct (completion (m s)); simpl; [apply app_nil_r | reflexivity].
Qed.

End Emission.

(** C10. At-most-once emission: stage 1 leaves for an entry at most one
    of an item and a request, never both; stage 2 yields at most one
    item and no request; and the whole chain of an entry, stage 1
    followed by the answers to what it requested, yields at most one
    item. *)
Theorem at_most_once_emission `{SetOrder} `{RequestCheck}
    (fetch : Fetch) (base : string) (anchors : list Z) (paper_dt : Dt)
    (s : Spider) :
  let r1 := parse_dt base anchors paper_dt s in
  length (items_of (trace r1)) + length (requests_of (trace r1)) <= 1
  /\ (forall response s',
         length (items_of (trace (parse_abstract_page response s'))) <= 1
         /\ requests_of (trace (parse_abstract_page response s')) = [])
  /\ length (items_of (trace (entry_chain fetch base anchors paper_dt s))) <= 1.
Proof.
  intros r1. subst r1.
  pose proof (parse_dt_outcome base anchors paper_dt s) as Hout.
  split; [|split].
  - destruct Hout as [[-> ->] | [(it & -> & ->) | (rq & -> & ->)]]; simpl; lia.
  - intros response s'.
    destruct (stage2_outcome response s') as [Hrq Hit]. split; [|exact Hrq].
    destruct Hit as [-> | ->]; simpl; lia.
  - unfold entry_chain, with_answers. simpl.
    unfold items_of at 1. rewrite flat_map_app.
    fold (items_of (trace (parse_dt base anchors paper_dt s))).
    rewrite length_app.
    destruct Hout as [[-> ->] | [(it & -> & ->) | (rq & -> & ->)]]; simpl;
      try lia.
    rewrite trace_bind_ret.
    pose proof (answer_items fetch rq
                  (final (parse_dt base anchors paper_dt s))) as Ha.
    unfold items_of in Ha. lia.
Qed.

(** X23. An entry that reaches the title test without a hit, and whose
    abstract link [response.urljoin] and [scrapy.Request] accept, is
    decided by its abstract: the chain yields its item exactly when the
    abstract holds a keyword. *)
Lemma escalated_entry_chain `{SetOrder} `{RequestCheck}
    (fetch : Fetch) (base : string) (anchors : list Z) (paper_dt : Dt)
    (paper_dd : Dd) (abstract_link text : string) (paper_id : Z) (s : Spider) :
  let title := clean_title_of (list_title_string paper_dd) in
  let abstract := clean_abstract_of text in
  let item :=
    item_of (PyStr.last_field (PyStr.split abstract_link "/")) paper_dd in
  paper_id_of paper_dt = Some paper_id ->
  past_bound anchors paper_id = false ->
  PyStr.non_empty (abstract_href paper_dt) = Some abstract_link ->
  following_dd paper_dt = Some paper_dd ->
  passes_gate (target_categories s) paper_dd = true ->
  no_keyword (my_keywords s) title ->
  request_accepted base abstract_link = true ->
  fetch (url (escalation base abstract_link item title)) = Some (Some text) ->
  text <> EmptyString ->
  let t := trace (entry_chain fetch base anchors paper_dt s) in
  ((exists kw, In kw (my_keywords s) /\ ci_substring kw abstract) ->
   items_of t = [item])
  /\ (no_keyword (my_keywords s) abstract -> items_of t = []).
Proof.
  intros title abstract item Hid Hb Hl Hdd Hgate Hmiss Hacc Hfetch Hne t.
  assert (Lt : PyStr.lower title = title) by apply clean_title_lower.
  assert (La : PyStr.lower abstract = abstract) by apply clean_abstract_lower.
  apply (misses_no_keyword _ _ Lt) in Hmiss.
  assert (Hrun : parse_dt base anchors paper_dt s
                 = {| final := s;
                      trace := tests (my_keywords s) title
                               ++ [YieldRequest
                                     (escalation base abstract_link item title)];
                      completion := Returned tt |}).
  { rewrite (parse_dt_indexed _ _ _ _ _ Hid), Hb.
    unfold entry_stage. rewrite Hl, Hdd.
    rewrite (category_stage_pass _ _ _ _ _ Hgate).
    now rewrite (title_stage_miss _ _ _ _ _ _ Hacc Hmiss). }
  subst t. unfold entry_chain, with_answers. rewrite Hrun.
  cbn [final trace completion].
  unfold requests_of at 1 2. rewrite flat_map_tests_tail by reflexivity.
  cbn [flat_map app for_each]. unfold items_of. rewrite flat_map_app.
  rewrite flat_map_tests_tail by reflexivity. cbn [flat_map app].
  rewrite trace_bind_ret. unfold answer. rewrite Hfetch.
  cbn [meta escalation].
  destruct (scan_cases abstract (my_keywords s))
    as [(pre & kw & post & E & Hpre & Hkw) | Hall].
  - rewrite (stage2_hit _ text pre kw post s Hne E Hpre Hkw).
    cbn [trace]. rewrite flat_map_tests_tail by reflexivity.
    split; [reflexivity|]. intros Hno.
    unfold no_keyword in Hno. rewrite Forall_forall in Hno.
    elim (Hno kw).
    + rewrite E. apply in_or_app. right. now left.
    + now apply (contains_lower_ci kw abstract La).
  - rewrite (stage2_miss _ text s Hne Hall).
    cbn [trace]. rewrite flat_map_tests_tail by reflexivity.
    split; [|reflexivity]. intros [kw [Hin Hci]].
    apply (misses_no_keyword _ _ La) in Hall.
    unfold no_keyword in Hall. rewrite Forall_forall in Hall.
    now elim (Hall kw Hin).
Qed.

(** ** Title normalization *)

Section Normalization.

Lemma replace_absent (old new s : string) :
  PyStr.contains s old = false -> PyStr.replace s old new = s.
Proof.
  unfold PyStr.replace. induction s as [|c s IH]; cbn [PyStr.contains]; intros C.
  - reflexivity.
  - apply orb_false_iff in C as [P C]. cbn [PyStr.replace_from].
    rewrite P. now rewrite (IH C).
Qed.

Lemma substring_all (s : string) : substring 0 (String.length s) s = s.
Proof. induction s as [|c s IH]; simpl; [reflexivity | now rewrite IH]. Qed.

(** Where the label occurs only in front, or not at all, the source
    normalizes the title as the specification words it. *)
Lemma title_label_in_front (rest : string) :
  PyStr.contains rest "Title:" = false ->
  clean_title_of (Some ("Title:" ++ rest)%string)
  = spec_normalize_title ("Title:" ++ rest).
Proof.
  intros C.
  assert (P : PyStr.startswith ("Title:" ++ rest) "Title:" = true)
    by (apply startswith_spec; now exists rest).
  assert (R : PyStr.replace ("Title:" ++ rest) "Title:" EmptyString = rest).
  { unfold PyStr.replace. change ("Title:" ++ rest)%string
      with (String "T" ("itle:" ++ rest)) in *.
    cbn [PyStr.replace_from]. rewrite P. simpl.
    now apply replace_absent. }
  unfold clean_title_of, spec_normalize_title, strip_label_prefix.
  change (PyStr.non_empty (Some ("Title:" ++ rest)%string))
    with (Some ("Title:" ++ rest)%string).
  cbv beta iota. rewrite R, P. simpl. now rewrite Nat.sub_0_r, substring_all.
Qed.

Lemma title_without_label (c : ascii) (t : string) :
  PyStr.contains (String c t) "Title:" = false ->
  clean_title_of (Some (String c t)) = spec_normalize_title (String c t).
Proof.
  intros C. unfold clean_title_of, spec_normalize_title, strip_label_prefix.
  change (PyStr.non_empty (Some (String c t))) with (Some (String c t)).
  cbv beta iota. rewrite (replace_absent _ _ _ C).
  cbn [PyStr.contains] in C. apply orb_false_iff in C as [P _].
  now rewrite P.
Qed.

End Normalization.

(** C6. Title normalization, at the title text
    ["Title: Working Title: A Survey"]: the source removes the second
    occurrence of the label too and gives ["working  a survey"], where
    dropping the leading label only gives ["working title: a survey"]. *)
Theorem title_inner_label_removed :
  clean_title_of (Some "Title: Working Title: A Survey") = "working  a survey"
  /\ spec_normalize_title "Title: Working Title: A Survey"
     = "working title: a survey"
  /\ clean_title_of (Some "Title: Working Title: A Survey")
     <> spec_normalize_title "Title: Working Title: A Survey".
Proof.
  split; [reflexivity|]. split; [reflexivity|]. discriminate.
Qed.

(** ** The keyword list as compiled *)

Section Interferometer.

Lemma in_both_intersect (c : string) (xs ys : list string) :
  In c xs -> In c ys -> non_empty_list (intersection xs ys) = true.
Proof.
  intros Hx Hy. destruct (non_empty_list (intersection xs ys)) eqn:E;
    [reflexivity|].
  now elim (proj1 (intersection_empty xs ys) E c Hx).
Qed.

Lemma interferometer_passes_gate `{SetOrder} :
  passes_gate (target_categories (init None)) interferometer_dd = true.
Proof.
  unfold passes_gate. simpl negb. cbv iota. simpl orb.
  apply (in_both_intersect "astro-ph.GA").
  - unfold categories_of. simpl PyStr.non_empty. cbv iota.
    apply list_of_set_In. now left.
  - now left.
Qed.

Lemma interferometer_title_misses :
  Forall (fun k => hits (clean_title_of (list_title_string interferometer_dd)) k
                   = false) (my_keywords (init None)).
Proof. repeat (constructor; [reflexivity|]). constructor. Qed.

Lemma interferometer_abstract_misses :
  Forall (fun k => hits (clean_abstract_of interferometer_abstract) k = false)
    (my_keywords (init None)).
Proof. repeat (constructor; [reflexivity|]). constructor. Qed.

Lemma interferometer_crawl_trace `{SetOrder} `{RequestCheck} :
  trace (crawl interferometer_fetch interferometer_page (init None))
  = tests keyword_literal "a new interferometer"
    ++ [YieldRequest
          (escalation "https://arxiv.org/list/astro-ph.GA/new"
             "/abs/2401.00001" (item_of "2401.00001" interferometer_dd)
             "a new interferometer")]
    ++ tests keyword_literal "we build an interferometer for radio imaging."
    ++ [Log INFO (keyword_skip_message "2401.00001")].
Proof.
  set (s := init None).
  assert (Hparse : parse interferometer_page s
            = {| final := s;
                 trace := tests keyword_literal "a new interferometer"
                   ++ [YieldRequest
                         (escalation "https://arxiv.org/list/astro-ph.GA/new"
                            "/abs/2401.00001"
                            (item_of "2401.00001" interferometer_dd)
                            "a new interferometer")];
                 completion := Returned tt |}).
  { rewrite (parse_run interferometer_page [0; 24; 30]%Z s) by reflexivity.
    simpl for_each.
    assert (Hdt : parse_dt (response_url interferometer_page) [0; 24; 30]%Z
                    interferometer_dt s
                  = {| final := s;
                       trace := tests keyword_literal "a new interferometer"
                         ++ [YieldRequest
                               (escalation "https://arxiv.org/list/astro-ph.GA/new"
                                  "/abs/2401.00001"
                                  (item_of "2401.00001" interferometer_dd)
                                  "a new interferometer")];
                       completion := Returned tt |}).
    { rewrite (parse_dt_indexed _ _ _ 1%Z s) by reflexivity.
      change (past_bound [0; 24; 30]%Z 1) with false. cbv iota.
      change (entry_stage (response_url interferometer_page) interferometer_dt s)
        with (category_stage "https://arxiv.org/list/astro-ph.GA/new"
                "/abs/2401.00001" "2401.00001" interferometer_dd s).
      rewrite (category_stage_pass _ _ _ _ _ interferometer_passes_gate).
      assert (Hacc : request_accepted "https://arxiv.org/list/astro-ph.GA/new"
                       "/abs/2401.00001" = true)
        by (apply abs_path_accepted; reflexivity).
      now rewrite (title_stage_miss _ _ _ _ _ _ Hacc interferometer_title_misses). }
    rewrite (bind_returned _ _ s _ tt Hdt). reflexivity. }
  unfold crawl, with_answers. rewrite Hparse. reflexivity.
Qed.

End Interferometer.

(** C7. Keyword-list concatenation: the compiled list holds the patterns
    "strong lensinglens model" and "interferometerDust" and none of
    "strong lensing", "lens model", "interferometer" and "Dust"; and for
    a new entry in a target category whose title and abstract both
    contain "interferometer" and no pattern of the list, the crawl
    requests the abstract page and yields no item. *)
Theorem keyword_concatenation_artifact :
  my_keywords (init None) = keyword_literal
  /\ In "strong lensinglens model" keyword_literal
  /\ In "interferometerDust" keyword_literal
  /\ ~ In "strong lensing" keyword_literal
  /\ ~ In "lens model" keyword_literal
  /\ ~ In "interferometer" keyword_literal
  /\ ~ In "Dust" keyword_literal
  /\ let title := clean_title_of (list_title_string interferometer_dd) in
     let abstract := clean_abstract_of interferometer_abstract in
     ci_substring "interferometer" title
     /\ ci_substring "interferometer" abstract
     /\ no_keyword keyword_literal title
     /\ no_keyword keyword_literal abstract
     /\ forall (order : SetOrder) (requests : RequestCheck),
          let t := trace (crawl interferometer_fetch interferometer_page
                            (init None)) in
          items_of t = [] /\ length (requests_of t) = 1.
Proof.
  split; [reflexivity|].
  split; [simpl; tauto|]. split; [simpl; tauto|].
  assert (Hnot : forall k, forallb (fun x => negb (String.eqb k x)) keyword_literal
                           = true -> ~ In k keyword_literal).
  { intros k Hall Hin. rewrite forallb_forall in Hall.
    specialize (Hall k Hin). now rewrite String.eqb_refl in Hall. }
  do 4 (split; [apply Hnot; reflexivity|]).
  intros title abstract.
  split; [apply contains_lower_ci; reflexivity|].
  split; [apply contains_lower_ci; reflexivity|].
  split; [apply misses_no_keyword;
          [reflexivity | exact interferometer_title_misses]|].
  split; [apply misses_no_keyword;
          [reflexivity | exact interferometer_abstract_misses]|].
  intros order requests t. subst t. rewrite interferometer_crawl_trace.
  split; reflexivity.
Qed.

(** ** Concrete runs *)

Example lower_mixed : PyStr.lower "JWST Survey: z>6" = "jwst survey: z>6".
Proof. reflexivity. Qed.

Example strip_both :
  PyStr.strip (String "010" "  a b " ++ String "009" EmptyString) = "a b".
Proof. reflexivity. Qed.

Example replace_all_occurrences :
  PyStr.replace "xTitle:yTitle:" "Title:" EmptyString = "xy".
Proof. reflexivity. Qed.

Example split_item : PyStr.split "#item12" "item" = ["#"; "12"].
Proof. reflexivity. Qed.

Example split_slash :
  PyStr.last_field (PyStr.split "/abs/2401.00001" "/") = "2401.00001".
Proof. reflexivity. Qed.

Example int_plain : PyStr.int " 1_000 " = Some 1000%Z.
Proof. reflexivity. Qed.

Example int_negative : PyStr.int "-7" = Some (-7)%Z.
Proof. reflexivity. Qed.

Example int_empty : PyStr.int EmptyString = None.
Proof. reflexivity. Qed.

Example int_bad_underscore : PyStr.int "1__0" = None.
Proof. reflexivity. Qed.

(** The separator U+001C is white space for [str.strip] and not for
    [int]; the no-break space U+00A0 is white space for both. *)
Example int_separator_refused :
  PyStr.isspace "028" = true /\ PyStr.int (String "028" "12") = None.
Proof. split; reflexivity. Qed.

Example int_no_break_space : PyStr.int (String "160" "12") = Some 12%Z.
Proof. reflexivity. Qed.

(** A literal of 4300 digits is read, one of 4301 digits is refused. *)
Example int_digit_limit :
  PyStr.int (String.concat EmptyString (repeat "1" 4300)) <> None
  /\ PyStr.int (String.concat EmptyString (repeat "1" 4301)) = None.
Proof. split; [vm_compute; discriminate | vm_compute; reflexivity]. Qed.

Example findall_two :
  PyStr.findall_parens "Galaxies (astro-ph.GA); Cosmology (astro-ph.CO)"
  = ["astro-ph.GA"; "astro-ph.CO"].
Proof. reflexivity. Qed.

Example findall_edge : PyStr.findall_parens "() ((a) (b" = ["(a"].
Proof. reflexivity. Qed.

Example default_targets :
  target_categories (init None) = ["astro-ph.GA"; "astro-ph.CO"].
Proof. reflexivity. Qed.

(** Both spellings of a title hit the pattern "JWST". *)
Example jwst_any_case :
  hits (clean_title_of (Some "Title: First JWST Results")) "JWST" = true
  /\ hits (clean_title_of (Some "Title: a jwst survey")) "JWST" = true.
Proof. split; reflexivity. Qed.

(** A title hit: the item is yielded after three comparisons and no
    request is made. *)
Example lensing_survey_run :
  trace (parse (with_dts interferometer_page [survey_dt]) (init None))
  = [ Tested "strong lens" "a strong lensing survey";
      Log INFO
        "Found INTERESTING paper (by Title) 2401.00002: a strong lensing survey...";
      YieldItem {| id := "2401.00002"; categories := ["astro-ph.GA"] |} ].
Proof. reflexivity. Qed.

(** A title with the word "Gas" is decided by the title alone: the
    pattern "gas" hits it before "molecular gas" is reached. *)
Example gas_title_run :
  let t := trace (parse (with_dts interferometer_page [gas_dt]) (init None)) in
  items_of t = [ {| id := "2401.00003"; categories := ["astro-ph.GA"] |} ]
  /\ requests_of t = []
  /\ last (tested_of t) EmptyString = "gas".
Proof. repeat split; reflexivity. Qed.

(** An entry at the bound and an entry of another category leave no item
    and no request. *)
Example late_and_foreign_run :
  trace (parse (with_dts interferometer_page [late_dt; foreign_dt]) (init None))
  = [ Log DEBUG "Skipped paper 2401.00004 (category mismatch)" ].
Proof. reflexivity. Qed.

(** An entry whose anchor carries no integer ends the parse; what was
    yielded before it stays. *)
Example broken_anchor_run :
  let r := parse (with_dts interferometer_page
                    [survey_dt; broken_dt; survey_dt]) (init None) in
  completion r = Raised ValueError
  /\ items_of (trace r)
     = [ {| id := "2401.00002"; categories := ["astro-ph.GA"] |} ].
Proof. split; reflexivity. Qed.

(** ** Instances of the theorems *)

Lemma stage1_title_decision_witness :
  passes_gate (target_categories (init None)) survey_dd = true
  /\ list_title_string survey_dd = Some "Title: A Strong Lensing Survey"
  /\ let r := category_stage "https://arxiv.org/list/astro-ph.GA/new"
                "/abs/2401.00002" "2401.00002" survey_dd (init None) in
     items_of (trace r) = [item_of "2401.00002" survey_dd]
     /\ requests_of (trace r) = [].
Proof.
  assert (P : passes_gate (target_categories (init None)) survey_dd = true)
    by reflexivity.
  split; [exact P|]. split; [reflexivity|].
  assert (Hkw : ci_substring "strong lens"
                  (clean_title_of (list_title_string survey_dd)))
    by (apply contains_lower_ci; reflexivity).
  assert (Hhit : ~ no_keyword (my_keywords (init None))
                     (clean_title_of (list_title_string survey_dd))).
  { intros Hno. unfold no_keyword in Hno. rewrite Forall_forall in Hno.
    apply (Hno "strong lens"); [now left | exact Hkw]. }
  destruct (stage1_title_decision "https://arxiv.org/list/astro-ph.GA/new"
              "/abs/2401.00002" "2401.00002" survey_dd (init None) P)
    as [(pre & kw & _ & _ & _ & _ & Hi & Hr) | [(Hno & _) | (Hno & _)]].
  - split; [exact Hi | exact Hr].
  - now elim Hhit.
  - now elim Hhit.
Defined.

(** Against C1 as first worded: an entry past the category gate whose
    title holds no keyword and whose abstract link is [mailto:x@y.z] is
    not escalated. [urljoin] leaves the link as it is, [scrapy.Request]
    raises [ValueError] for a URL without a scheme, nothing is requested,
    and the parse ends there: the entry after it, whose title holds a
    keyword, is not reached. *)
Lemma refused_link_not_escalated :
  no_keyword (my_keywords (init None))
    (clean_title_of (list_title_string interferometer_dd))
  /\ forall (order : SetOrder) (requests : RequestCheck),
       let base := "https://arxiv.org/list/astro-ph.GA/new" in
       let link := "mailto:x@y.z" in
       let arxiv_id := PyStr.last_field (PyStr.split link "/") in
       let r := category_stage base link arxiv_id interferometer_dd
                  (init None) in
       let page := parse (with_dts interferometer_page [mailto_dt; survey_dt])
                     (init None) in
       passes_gate (target_categories (init None)) interferometer_dd = true
       /\ completion r = Raised ValueError
       /\ items_of (trace r) = []
       /\ requests_of (trace r) = []
       /\ ~ escalates_without_hit (init None) base link
             (item_of arxiv_id interferometer_dd)
             (clean_title_of (list_title_string interferometer_dd)) r
       /\ completion page = Raised ValueError
       /\ items_of (trace page) = []
       /\ requests_of (trace page) = [].
Proof.
  assert (Hno : no_keyword (my_keywords (init None))
                  (clean_title_of (list_title_string interferometer_dd)))
    by (apply misses_no_keyword;
        [reflexivity | exact interferometer_title_misses]).
  split; [exact Hno|].
  intros order requests base link arxiv_id r page.
  assert (Ha : request_accepted base link = false)
    by (apply mailto_refused; reflexivity).
  assert (Hr : r = {| final := init None;
                      trace := tests keyword_literal "a new interferometer";
                      completion := Raised ValueError |}).
  { subst r.
    rewrite (category_stage_pass _ _ _ _ _ interferometer_passes_gate).
    now rewrite (title_stage_refused _ _ _ _ _ _ Ha
                   interferometer_title_misses). }
  assert (Hpage : page = {| final := init None;
                            trace := tests keyword_literal "a new interferometer";
                            completion := Raised ValueError |}).
  { subst page.
    rewrite (parse_run (with_dts interferometer_page [mailto_dt; survey_dt])
               [0; 24; 30]%Z (init None)) by reflexivity.
    cbn [for_each with_dts dl_dts response_url].
    apply bind_raised.
    rewrite (parse_dt_indexed _ _ _ 1%Z (init None)) by reflexivity.
    change (past_bound [0; 24; 30]%Z 1) with false. cbv iota.
    exact Hr. }
  split; [exact interferometer_passes_gate|].
  rewrite Hr, Hpage. cbn [trace completion].
  rewrite items_of_tests, requests_of_tests.
  do 3 (split; [reflexivity|]).
  split; [|now split].
  intros Hesc. specialize (Hesc Hno). cbn [trace] in Hesc.
  rewrite requests_of_tests in Hesc. discriminate Hesc.
Qed.

Lemma stage2_emits_iff_keyword_witness :
  gas_abstract <> EmptyString
  /\ items_of
       (trace (parse_abstract_page
                 {| response_meta := gas_meta;
                    blockquote_abstract := Some gas_abstract |} (init None)))
     = [item_data gas_meta].
Proof.
  assert (Hne : gas_abstract <> EmptyString) by discriminate.
  split; [exact Hne|].
  destruct (stage2_emits_iff_keyword gas_meta gas_abstract (init None) Hne)
    as (_ & _ & _ & Hyes & _).
  apply Hyes. exists "molecular gas". split.
  - simpl. tauto.
  - apply contains_lower_ci; reflexivity.
Defined.



Lemma boundary_exclusivity_witness :
  completion (collect_anchors (dlpage_li_hrefs interferometer_page) []
                (init None))
  = Returned [0; 24; 30]%Z
  /\ parse_dt (response_url interferometer_page) [0; 24; 30]%Z late_dt
       (init None)
     = {| final := init None; trace := []; completion := Returned tt |}.
Proof.
  split; [reflexivity|].
  destruct (boundary_exclusivity interferometer_page (init None)
              [0; 24; 30]%Z eq_refl) as (_ & Hbound & _).
  apply (Hbound [0; 24]%Z 30%Z late_dt 30%Z); [reflexivity | reflexivity | lia].
Defined.

Lemma missing_abstract_warns_witness :
  PyStr.truthy None = false
  /\ logs_of
       (trace (parse_abstract_page
                 {| response_meta := gas_meta; blockquote_abstract := None |}
                 (init None)))
     = [(WARNING, "Could not extract abstract for 2401.00003")].
Proof.
  split; [reflexivity|].
  apply (missing_abstract_warns gas_meta None (init None)). reflexivity.
Defined.

(** ** Entries of a page, one after the other *)

Section Entries.
Context `{SetOrder}.
Context `{RequestCheck}.

Lemma for_each_app {A} (body : A -> Gen unit) (xs ys : list A) s :
  for_each (xs ++ ys) body s
  = bind (for_each xs body) (fun _ => for_each ys body) s.
Proof.
  revert s. induction xs as [|x xs IH]; intros s; simpl.
  - unfold bind. simpl. apply run_eta.
  - unfold bind at 1 2 3. destruct (completion (body x s)) eqn:C; simpl.
    + rewrite IH. unfold bind.
      destruct (completion (for_each xs body (final (body x s)))); simpl;
        [now rewrite app_assoc | reflexivity].
    + reflexivity.
Qed.

Lemma for_each_ext {A} (b1 b2 : A -> Gen unit) (xs : list A) s :
  (forall x, In x xs -> forall s', b1 x s' = b2 x s') ->
  for_each xs b1 s = for_each xs b2 s.
Proof.
  revert s. induction xs as [|x xs IH]; intros s Hext; simpl; [reflexivity|].
  unfold bind. rewrite (Hext x (or_introl eq_refl) s).
  destruct (completion (b2 x s)); [|reflexivity].
  rewrite IH; [reflexivity|]. intros y Hy. apply Hext. now right.
Qed.

Lemma parse_raised (response : ListingResponse) s :
  collect_anchors (dlpage_li_hrefs response) [] s
  = {| final := s; trace := []; completion := Raised ValueError |} ->
  parse response s
  = {| final := s; trace := []; completion := Raised ValueError |}.
Proof. intros E. unfold parse. now rewrite (bind_raised _ _ s [] ValueError E). Qed.

Lemma malformed_does_nothing base anchors paper_dt s :
  malformed paper_dt -> parse_dt base anchors paper_dt s = ret tt s.
Proof.
  intros [E | [[n Hid] Hm]].
  - now apply parse_dt_no_anchor.
  - rewrite (parse_dt_indexed _ _ _ _ _ Hid).
    destruct (past_bound anchors n); [reflexivity|].
    unfold entry_stage. destruct Hm as [-> | Hdd]; [reflexivity|].
    rewrite Hdd. now destruct (PyStr.non_empty (abstract_href paper_dt)).
Qed.

Lemma for_each_raise {A} (body : A -> Gen unit) (x : A) before after s :
  (forall s', body x s' = raise ValueError s') ->
  trace (for_each (before ++ x :: after) body s)
  = trace (for_each before body s)
  /\ completion (for_each (before ++ x :: after) body s) = Raised ValueError.
Proof.
  intros Hx. rewrite for_each_app. unfold bind.
  destruct (completion (for_each before body s)) as [[]|[]] eqn:C; simpl.
  - unfold bind. rewrite Hx. simpl. now rewrite app_nil_r.
  - now split.
Qed.

Lemma suffix_rejected_raises (lis : list (option string)) (str : string) s :
  In str (anchor_suffixes lis) -> PyStr.int str = None ->
  collect_anchors lis [] s
  = {| final := s; trace := []; completion := Raised ValueError |}.
Proof.
  intros Hin Hnone.
  destruct (collect_anchors_run lis [] s) as [(ns & Hns & _) | E];
    [exfalso | exact E].
  induction Hns as [|a n l ns Ha _ IH]; [contradiction|].
  destruct Hin as [<- | Hin]; [congruence | auto].
Qed.

End Entries.

(** X1. Malformed entries: an entry with no anchor name, or with a
    position index but without an abstract link or without a [dd],
    leaves no trace, and the page parses as if the entry were not
    there. *)
Theorem malformed_entry_skipped `{SetOrder} `{RequestCheck}
    (response : ListingResponse) (before after : list Dt) (paper_dt : Dt)
    (s : Spider) :
  dl_dts response = before ++ paper_dt :: after ->
  malformed paper_dt ->
  (forall anchors,
      parse_dt (response_url response) anchors paper_dt s
      = {| final := s; trace := []; completion := Returned tt |})
  /\ parse response s = parse (with_dts response (before ++ after)) s.
Proof.
  intros Hdts Hm. split.
  - intros anchors. now apply malformed_does_nothing.
  - destruct (collect_anchors_run (dlpage_li_hrefs response) [] s)
      as [(ns & _ & E) | E].
    + rewrite (parse_run response _ s E).
      rewrite (parse_run (with_dts response (before ++ after)) _ s E).
      rewrite Hdts. simpl. apply for_each_skip.
      intros s'. now apply malformed_does_nothing.
    + rewrite (parse_raised response s E).
      now rewrite (parse_raised (with_dts response (before ++ after)) s E).
Qed.

(** X2. An entry whose anchor name carries no integer ends the parse
    with a [ValueError]: what the entries before it left stays, and no
    entry after it is looked at. *)
Theorem bad_index_aborts `{SetOrder} `{RequestCheck}
    (response : ListingResponse) (before after : list Dt) (paper_dt : Dt)
    (paper_anchor : string) (s : Spider) :
  dl_dts response = before ++ paper_dt :: after ->
  PyStr.non_empty (item_anchor_name paper_dt) = Some paper_anchor ->
  PyStr.int (PyStr.last_field (PyStr.split paper_anchor "item")) = None ->
  completion (parse response s) = Raised ValueError
  /\ trace (parse response s) = trace (parse (with_dts response before) s).
Proof.
  intros Hdts Ea En.
  destruct (collect_anchors_run (dlpage_li_hrefs response) [] s)
    as [(ns & _ & E) | E].
  - rewrite (parse_run response _ s E).
    rewrite (parse_run (with_dts response before) _ s E).
    rewrite Hdts. simpl.
    destruct (for_each_raise (parse_dt (response_url response) ([] ++ ns))
                paper_dt before after s) as [Ht Hc].
    + intros s'. now apply (parse_dt_bad_index _ _ _ paper_anchor).
    + now split.
  - rewrite (parse_raised response s E).
    now rewrite (parse_raised (with_dts response before) s E).
Qed.

(** X3. A navigation link that contains "item" but no integer after it
    ends the parse before any entry is looked at: nothing is logged,
    yielded or requested. *)
Theorem bad_navigation_link_aborts `{SetOrder} `{RequestCheck}
    (response : ListingResponse) (li : option string) (href : string)
    (s : Spider) :
  In li (dlpage_li_hrefs response) ->
  PyStr.non_empty li = Some href ->
  PyStr.contains href "item" = true ->
  PyStr.int (PyStr.last_field (PyStr.split href "item")) = None ->
  parse response s
  = {| final := s; trace := []; completion := Raised ValueError |}.
Proof.
  intros Hin Eh Hc En. apply parse_raised.
  apply (suffix_rejected_raises _ (PyStr.last_field (PyStr.split href "item")));
    [|exact En].
  unfold anchor_suffixes. apply in_flat_map. exists li.
  split; [exact Hin|]. rewrite Eh, Hc. now left.
Qed.

(** X4. Entries are handled one by one with nothing carried over: when
    the entries [d1] parse without an exception, the trace of [d1 ++ d2]
    is the trace of [d1] followed by the trace of [d2], and it ends as
    the parse of [d2] ends. *)
Theorem parse_entries_independent `{SetOrder} `{RequestCheck}
    (response : ListingResponse) (d1 d2 : list Dt) (s : Spider) :
  completion (parse (with_dts response d1) s) = Returned tt ->
  trace (parse (with_dts response (d1 ++ d2)) s)
  = trace (parse (with_dts response d1) s)
    ++ trace (parse (with_dts response d2) s)
  /\ completion (parse (with_dts response (d1 ++ d2)) s)
     = completion (parse (with_dts response d2) s).
Proof.
  intros C.
  destruct (collect_anchors_run (dlpage_li_hrefs response) [] s)
    as [(ns & _ & E) | E].
  - rewrite (parse_run (with_dts response d1) _ s E) in *.
    rewrite (parse_run (with_dts response d2) _ s E).
    rewrite (parse_run (with_dts response (d1 ++ d2)) _ s E).
    simpl in *. rewrite for_each_app. unfold bind. rewrite C. simpl.
    rewrite (read_only_for_each d1 _
               (read_only_parse_dt (response_url response) ([] ++ ns)) s).
    now split.
  - rewrite (parse_raised (with_dts response d1) s E) in C. discriminate.
Qed.

(** X5. The position filter is invisible on a page all of whose indexed
    entries lie below the last anchor: such a page parses as the same
    page without navigation links. *)
Theorem position_filter_inert `{SetOrder} `{RequestCheck}
    (response : ListingResponse) (init : list Z) (bound : Z) (s : Spider) :
  completion (collect_anchors (dlpage_li_hrefs response) [] s)
  = Returned (init ++ [bound]) ->
  (forall paper_dt n,
      In paper_dt (dl_dts response) -> paper_id_of paper_dt = Some n ->
      (n < bound)%Z) ->
  parse response s = parse (without_nav response) s.
Proof.
  intros C Hlow. apply collect_anchors_returned in C as [_ E].
  rewrite (parse_run response _ s E).
  rewrite (parse_run (without_nav response) [] s) by reflexivity.
  simpl. apply for_each_ext. intros paper_dt Hin s'.
  destruct (PyStr.non_empty (item_anchor_name paper_dt)) as [a|] eqn:Ea.
  - destruct (PyStr.int (PyStr.last_field (PyStr.split a "item")))
      as [n|] eqn:En.
    + assert (Hid : paper_id_of paper_dt = Some n)
        by (unfold paper_id_of; now rewrite Ea).
      rewrite !(parse_dt_indexed _ _ _ _ _ Hid), past_bound_last.
      specialize (Hlow paper_dt n Hin Hid).
      now apply Z.leb_gt in Hlow as ->.
    + now rewrite !(parse_dt_bad_index _ _ _ _ _ Ea En).
  - now rewrite !(parse_dt_no_anchor _ _ _ _ Ea).
Qed.

(** ** Where the outputs of a crawl come from *)

Section Origin.
Context `{SetOrder}.
Context `{RequestCheck}.

Lemma in_items_of (it : Item) (t : list Event) :
  In it (items_of t) <-> In (YieldItem it) t.
Proof.
  unfold items_of. rewrite in_flat_map. split.
  - intros [e [He Hit]]. destruct e; simpl in Hit; try contradiction.
    destruct Hit as [<- | []]. exact He.
  - intros He. exists (YieldItem it). split; [exact He | now left].
Qed.

Lemma in_requests_of (rq : Request) (t : list Event) :
  In rq (requests_of t) <-> In (YieldRequest rq) t.
Proof.
  unfold requests_of. rewrite in_flat_map. split.
  - intros [e [He Hrq]]. destruct e; simpl in Hrq; try contradiction.
    destruct Hrq as [<- | []]. exact He.
  - intros He. exists (YieldRequest rq). split; [exact He | now left].
Qed.

Lemma in_tests_tail (e : Event) kws text tail :
  (forall kw t, e <> Tested kw t) ->
  In e (tests kws text ++ tail) -> In e tail.
Proof.
  intros Hne Hin. apply in_app_or in Hin as [Hin | Hin]; [|exact Hin].
  unfold tests in Hin. apply in_map_iff in Hin as [k [Hk _]].
  now elim (Hne k text).
Qed.

(** Every event of a loop comes from one of its iterations. *)
Lemma for_each_trace_In {A} (body : A -> Gen unit) (xs : list A) s e :
  (forall x, read_only (body x)) ->
  In e (trace (for_each xs body s)) ->
  exists x, In x xs /\ In e (trace (body x s)).
Proof.
  intros Hro. induction xs as [|x xs IH]; simpl; [contradiction|].
  unfold bind. destruct (completion (body x s)) eqn:C; simpl.
  - rewrite (Hro x s). intros Hin. apply in_app_or in Hin as [Hin | Hin].
    + exists x. split; [now left | exact Hin].
    + destruct (IH Hin) as [y [Hy He]]. exists y. split; [now right | exact He].
  - intros Hin. exists x. split; [now left | exact Hin].
Qed.

Lemma category_stage_gate_closed base link arxiv_id dd s :
  passes_gate (target_categories s) dd = false ->
  category_stage base link arxiv_id dd s
  = {| final := s; trace := [Log DEBUG (category_skip_message arxiv_id)];
       completion := Returned tt |}.
Proof.
  unfold passes_gate. intros P. apply orb_false_iff in P as [T E].
  apply negb_false_iff in T. now apply category_stage_skip.
Qed.

(** The trace of one entry is one of the five. *)
Lemma parse_dt_trace base anchors paper_dt s :
  EntryTrace base s paper_dt (trace (parse_dt base anchors paper_dt s)).
Proof.
  destruct (PyStr.non_empty (item_anchor_name paper_dt)) as [a|] eqn:Ea.
  - destruct (PyStr.int (PyStr.last_field (PyStr.split a "item")))
      as [n|] eqn:En.
    + assert (Hid : paper_id_of paper_dt = Some n)
        by (unfold paper_id_of; now rewrite Ea).
      rewrite (parse_dt_indexed _ _ _ _ _ Hid).
      destruct (past_bound anchors n); [constructor|].
      unfold entry_stage.
      destruct (PyStr.non_empty (abstract_href paper_dt)) as [link|] eqn:El;
        [|constructor].
      destruct (following_dd paper_dt) as [dd|] eqn:Edd; [|constructor].
      destruct (passes_gate (target_categories s) dd) eqn:P.
      * rewrite (category_stage_pass _ _ _ _ _ P).
        destruct (scan_cases (clean_title_of (list_title_string dd))
                    (my_keywords s))
          as [(pre & kw & post & E & Hpre & Hkw) | Hall].
        -- rewrite (title_stage_hit _ _ _ _ dd pre kw post s E Hpre Hkw).
           now apply (TitleHit base s paper_dt link dd pre kw post).
        -- destruct (request_accepted base link) eqn:Ha.
           ++ rewrite (title_stage_miss _ _ _ _ dd s Ha Hall).
              now apply (Escalated base s paper_dt link dd).
           ++ rewrite (title_stage_refused _ _ _ _ dd s Ha Hall).
              now apply (Refused base s paper_dt link dd).
      * rewrite (category_stage_gate_closed _ _ _ _ _ P).
        now apply (CategorySkip base s paper_dt link dd).
    + rewrite (parse_dt_bad_index _ _ _ _ _ Ea En). constructor.
  - rewrite (parse_dt_no_anchor _ _ _ _ Ea). constructor.
Qed.

Lemma entry_item_built base s paper_dt t it :
  EntryTrace base s paper_dt t -> In (YieldItem it) t ->
  built_from (target_categories s) paper_dt it.
Proof.
  intros Ht Hin. destruct Ht as [| link dd El Edd P
                                 | link dd pre kw post El Edd P E Hpre Hkw
                                 | link dd El Edd P Hall Ha
                                 | link dd El Edd P Hall Ha].
  - contradiction.
  - destruct Hin as [Hin | []]. discriminate.
  - apply in_tests_tail in Hin; [|discriminate].
    destruct Hin as [Hin | [Hin | []]]; [discriminate|].
    injection Hin as <-. now exists link, dd.
  - rewrite <- app_nil_r in Hin.
    apply in_tests_tail in Hin; [contradiction | discriminate].
  - apply in_tests_tail in Hin; [|discriminate].
    destruct Hin as [Hin | []]. discriminate.
Qed.

Lemma entry_request_built base s paper_dt t rq :
  EntryTrace base s paper_dt t -> In (YieldRequest rq) t ->
  exists abstract_link paper_dd,
    PyStr.non_empty (abstract_href paper_dt) = Some abstract_link
    /\ following_dd paper_dt = Some paper_dd
    /\ passes_gate (target_categories s) paper_dd = true
    /\ Forall (fun k => hits (clean_title_of (list_title_string paper_dd)) k
                        = false) (my_keywords s)
    /\ rq = escalation base abstract_link
              (item_of (PyStr.last_field (PyStr.split abstract_link "/"))
                 paper_dd)
              (clean_title_of (list_title_string paper_dd)).
Proof.
  intros Ht Hin. destruct Ht as [| link dd El Edd P
                                 | link dd pre kw post El Edd P E Hpre Hkw
                                 | link dd El Edd P Hall Ha
                                 | link dd El Edd P Hall Ha].
  - contradiction.
  - destruct Hin as [Hin | []]. discriminate.
  - apply in_tests_tail in Hin; [|discriminate].
    destruct Hin as [Hin | [Hin | []]]; discriminate.
  - rewrite <- app_nil_r in Hin.
    apply in_tests_tail in Hin; [contradiction | discriminate].
  - apply in_tests_tail in Hin; [|discriminate].
    destruct Hin as [Hin | []]. injection Hin as <-.
    now exists link, dd.
Qed.

(** Every event of [parse] comes from one entry of the page. *)
Lemma parse_event_origin (response : ListingResponse) s e :
  In e (trace (parse response s)) ->
  exists paper_dt t,
    In paper_dt (dl_dts response)
    /\ EntryTrace (response_url response) s paper_dt t /\ In e t.
Proof.
  destruct (collect_anchors_run (dlpage_li_hrefs response) [] s)
    as [(ns & _ & E) | E].
  - rewrite (parse_run response _ s E). intros Hin.
    apply for_each_trace_In in Hin as [paper_dt [Hdt He]];
      [|intros x; apply read_only_parse_dt].
    exists paper_dt, (trace (parse_dt (response_url response) ([] ++ ns)
                               paper_dt s)).
    split; [exact Hdt|]. split; [apply parse_dt_trace | exact He].
  - rewrite (parse_raised response s E). contradiction.
Qed.

Lemma answer_item fetch rq s it :
  In (YieldItem it) (trace (answer fetch rq s)) -> it = item_data (meta rq).
Proof.
  unfold answer. destruct (fetch (url rq)) as [page|]; [|contradiction].
  intros Hin. apply in_items_of in Hin.
  destruct (stage2_outcome
              {| response_meta := meta rq; blockquote_abstract := page |} s)
    as [_ [E | E]]; simpl in E; rewrite E in Hin.
  - contradiction.
  - destruct Hin as [<- | []]. reflexivity.
Qed.

(** An item of the crawl was yielded by [parse] or carried by a request
    of [parse]. *)
Lemma crawl_item_cases fetch (response : ListingResponse) s it :
  In (YieldItem it) (trace (crawl fetch response s)) ->
  In (YieldItem it) (trace (parse response s))
  \/ exists rq, In (YieldRequest rq) (trace (parse response s))
                /\ it = item_data (meta rq).
Proof.
  unfold crawl, with_answers. simpl. intros Hin.
  apply in_app_or in Hin as [Hin | Hin]; [now left | right].
  apply for_each_trace_In in Hin as [rq [Hrq He]];
    [|intros x; apply read_only_answer].
  exists rq. split.
  - now apply in_requests_of.
  - exact (answer_item fetch rq _ it He).
Qed.

Lemma crawl_item_origin fetch (response : ListingResponse) s it :
  In it (items_of (trace (crawl fetch response s))) ->
  exists paper_dt,
    In paper_dt (dl_dts response)
    /\ built_from (target_categories s) paper_dt it.
Proof.
  intros Hin. apply in_items_of in Hin.
  apply crawl_item_cases in Hin as [Hin | [rq [Hrq ->]]].
  - apply parse_event_origin in Hin as (paper_dt & t & Hdt & Ht & He).
    exists paper_dt. split; [exact Hdt|].
    exact (entry_item_built _ _ _ t it Ht He).
  - apply parse_event_origin in Hrq as (paper_dt & t & Hdt & Ht & He).
    exists paper_dt. split; [exact Hdt|].
    destruct (entry_request_built _ _ _ _ _ Ht He)
      as (link & dd & El & Edd & P & _ & ->).
    now exists link, dd.
Qed.

Lemma slice_to_length (n : nat) (text : string) :
  String.length (PyStr.slice_to n text) <= n.
Proof.
  revert text. induction n as [|n IH]; intros [|c text]; simpl; try lia.
  specialize (IH text). lia.
Qed.

Lemma passes_gate_categories targets dd :
  passes_gate targets dd = true ->
  let cs := categories_of (subjects_text_of dd) in
  NoDup cs /\ (cs = [] \/ exists c, In c cs /\ In c targets).
Proof.
  intros P cs. split.
  - subst cs. unfold categories_of.
    destruct (PyStr.non_empty (subjects_text_of dd));
      [apply list_of_set_NoDup | constructor].
  - unfold passes_gate in P. apply orb_true_iff in P as [T | I].
    + left. subst cs. unfold categories_of.
      apply negb_true_iff in T. now rewrite (non_empty_truthy _ T).
    + right. fold cs in I.
      destruct (intersection cs targets) as [|c l] eqn:Ei; [discriminate|].
      assert (Hc : In c (intersection cs targets)) by (rewrite Ei; now left).
      unfold intersection, mem in Hc. apply filter_In in Hc as [Hc Hm].
      apply existsb_exists in Hm as [y [Hy Ey]].
      apply String.eqb_eq in Ey. subst y. now exists c.
Qed.

End Origin.

(** X6. Provenance: every item a crawl hands to the sink, whether
    yielded by [parse] or by the callback on an abstract page and
    whatever the fetches return, is the item [parse] built for an entry
    of the listing page that has an abstract link and a [dd] and passes
    the category gate; its id is the last path segment of that link. *)
Theorem crawl_items_provenance `{SetOrder} `{RequestCheck}
    (fetch : Fetch) (response : ListingResponse) (s : Spider) (it : Item) :
  In it (items_of (trace (crawl fetch response s))) ->
  exists paper_dt abstract_link paper_dd,
    In paper_dt (dl_dts response)
    /\ PyStr.non_empty (abstract_href paper_dt) = Some abstract_link
    /\ following_dd paper_dt = Some paper_dd
    /\ passes_gate (target_categories s) paper_dd = true
    /\ id it = PyStr.last_field (PyStr.split abstract_link "/")
    /\ categories it = categories_of (subjects_text_of paper_dd).
Proof.
  intros Hin.
  destruct (crawl_item_origin fetch response s it Hin)
    as (paper_dt & Hdt & link & dd & El & Edd & P & ->).
  exists paper_dt, link, dd. repeat split; assumption.
Qed.

(** X7. No item outside the target categories: the categories of every
    item a crawl hands to the sink are free of duplicates, and either
    there are none or one of them is a target category. *)
Theorem crawl_items_in_target `{SetOrder} `{RequestCheck}
    (fetch : Fetch) (response : ListingResponse) (s : Spider) (it : Item) :
  In it (items_of (trace (crawl fetch response s))) ->
  NoDup (categories it)
  /\ (categories it = []
      \/ exists c, In c (categories it) /\ In c (target_categories s)).
Proof.
  intros Hin.
  destruct (crawl_item_origin fetch response s it Hin)
    as (paper_dt & Hdt & link & dd & El & Edd & P & ->).
  apply (passes_gate_categories _ _ P).
Qed.

(** X8. What a request carries: every request [parse] issues goes to the
    abstract link of an entry of the page, joined to the URL of the
    page; the id in its [meta] is the last path segment of that link,
    the title prefix has at most 30 characters, and no keyword occurs in
    the title of the entry. *)
Theorem parse_requests_well_formed `{SetOrder} `{RequestCheck}
    (response : ListingResponse) (s : Spider) (rq : Request) :
  In rq (requests_of (trace (parse response s))) ->
  base_url (url rq) = response_url response
  /\ id (item_data (meta rq)) = PyStr.last_field (PyStr.split (link (url rq)) "/")
  /\ String.length (title_prefix (meta rq)) <= 30
  /\ exists paper_dt paper_dd,
       In paper_dt (dl_dts response)
       /\ PyStr.non_empty (abstract_href paper_dt) = Some (link (url rq))
       /\ following_dd paper_dt = Some paper_dd
       /\ title_prefix (meta rq)
          = PyStr.slice_to 30 (clean_title_of (list_title_string paper_dd))
       /\ no_keyword (my_keywords s) (clean_title_of (list_title_string paper_dd)).
Proof.
  intros Hin. apply in_requests_of in Hin.
  apply parse_event_origin in Hin as (paper_dt & t & Hdt & Ht & He).
  destruct (entry_request_built _ _ _ _ _ Ht He)
    as (alink & dd & El & Edd & P & Hall & ->).
  unfold escalation, item_of.
  cbn [url meta base_url link item_data title_prefix id].
  split; [reflexivity|]. split; [reflexivity|]. split.
  - apply slice_to_length.
  - exists paper_dt, dd. repeat split; try assumption.
    apply misses_no_keyword; [apply clean_title_lower | exact Hall].
Qed.

(** ** Counting the outputs of a page *)

Section Counting.
Context `{SetOrder}.
Context `{RequestCheck}.

Lemma items_of_app (a b : list Event) : items_of (a ++ b) = items_of a ++ items_of b.
Proof. apply flat_map_app. Qed.

Lemma requests_of_app (a b : list Event) :
  requests_of (a ++ b) = requests_of a ++ requests_of b.
Proof. apply flat_map_app. Qed.

(** A measure of traces that adds up over concatenation and is at most
    one on each iteration is at most the number of iterations. *)
Lemma for_each_bounded {A} (f : list Event -> nat) (body : A -> Gen unit)
    (xs : list A) s :
  f [] = 0 -> (forall a b, f (a ++ b) = f a + f b) ->
  (forall x s', f (trace (body x s')) <= 1) ->
  f (trace (for_each xs body s)) <= length xs.
Proof.
  intros Hnil Happ Hone. revert s.
  induction xs as [|x xs IH]; intros s; simpl.
  - rewrite Hnil. lia.
  - unfold bind. destruct (completion (body x s)); simpl.
    + rewrite Happ. specialize (Hone x s).
      specialize (IH (final (body x s))). lia.
    + specialize (Hone x s). lia.
Qed.

Lemma parse_dt_one base anchors paper_dt s :
  length (items_of (trace (parse_dt base anchors paper_dt s)))
  + length (requests_of (trace (parse_dt base anchors paper_dt s))) <= 1.
Proof.
  destruct (parse_dt_outcome base anchors paper_dt s)
    as [[-> ->] | [(it & -> & ->) | (rq & -> & ->)]]; simpl; lia.
Qed.

End Counting.

(** X9. At most one output per entry of the page: the items and
    requests [parse] yields are together no more than the entries of
    the page, and the items a whole crawl hands to the sink are no more
    than the items and requests of [parse]. *)
Theorem page_output_bound `{SetOrder} `{RequestCheck}
    (fetch : Fetch) (response : ListingResponse) (s : Spider) :
  let tp := trace (parse response s) in
  let tc := trace (crawl fetch response s) in
  length (items_of tp) + length (requests_of tp) <= length (dl_dts response)
  /\ length (items_of tc) <= length (items_of tp) + length (requests_of tp)
  /\ length (items_of tc) <= length (dl_dts response).
Proof.
  intros tp tc.
  assert (Hp : length (items_of tp) + length (requests_of tp)
               <= length (dl_dts response)).
  { subst tp.
    destruct (collect_anchors_run (dlpage_li_hrefs response) [] s)
      as [(ns & _ & E) | E].
    - rewrite (parse_run response _ s E).
      apply (for_each_bounded
               (fun t => length (items_of t) + length (requests_of t))).
      + reflexivity.
      + intros a b. rewrite items_of_app, requests_of_app, !length_app. lia.
      + intros x s'. apply parse_dt_one.
    - rewrite (parse_raised response s E). simpl. lia. }
  assert (Hc : length (items_of tc)
               <= length (items_of tp) + length (requests_of tp)).
  { subst tc tp. unfold crawl, with_answers. cbn [trace].
    rewrite items_of_app, length_app.
    pose proof (for_each_bounded (fun t => length (items_of t))
                  (answer fetch) (requests_of (trace (parse response s)))
                  (final (parse response s)) eq_refl) as Ha.
    cbv beta in Ha. specialize (Ha (fun a b => eq_trans
        (f_equal (@length Item) (items_of_app a b)) (length_app _ _))).
    specialize (Ha (fun x s' => answer_items fetch x s')). lia. }
  repeat split; [exact Hp | exact Hc | lia].
Qed.

(** ** The keyword list as a set *)

Section KeywordSet.
Context `{SetOrder}.
Context `{RequestCheck}.

Lemma existsb_hit text pre kw post :
  hits text kw = true -> existsb (hits text) (pre ++ kw :: post) = true.
Proof.
  intros Hkw. apply existsb_exists. exists kw. split; [|exact Hkw].
  apply in_or_app. right. now left.
Qed.

Lemma existsb_miss text kws :
  Forall (fun k => hits text k = false) kws -> existsb (hits text) kws = false.
Proof.
  intros Hall. induction Hall as [|k kws Hk _ IH]; simpl; [reflexivity|].
  now rewrite Hk, IH.
Qed.

Lemma existsb_same_members text (kws1 kws2 : list string) :
  (forall kw, In kw kws1 <-> In kw kws2) ->
  existsb (hits text) kws1 = existsb (hits text) kws2.
Proof.
  intros Hmem.
  destruct (existsb (hits text) kws1) eqn:E1;
    destruct (existsb (hits text) kws2) eqn:E2; try reflexivity.
  - apply existsb_exists in E1 as [k [Hin Hk]]. apply Hmem in Hin.
    assert (E : existsb (hits text) kws2 = true)
      by (apply existsb_exists; now exists k).
    congruence.
  - apply existsb_exists in E2 as [k [Hin Hk]]. apply Hmem in Hin.
    assert (E : existsb (hits text) kws1 = true)
      by (apply existsb_exists; now exists k).
    congruence.
Qed.

(** The outputs of the title stage are decided by whether some pattern
    hits. *)
Lemma title_stage_outputs base link arxiv_id item dd s :
  let title := clean_title_of (list_title_string dd) in
  outputs (title_stage base link arxiv_id item dd s)
  = if existsb (hits title) (my_keywords s)
    then ([item], [], Returned tt)
    else if request_accepted base link
         then ([], [escalation base link item title], Returned tt)
         else ([], [], Raised ValueError).
Proof.
  intros title. unfold outputs.
  destruct (scan_cases title (my_keywords s))
    as [(pre & kw & post & E & Hpre & Hkw) | Hall].
  - rewrite (title_stage_hit base link arxiv_id item dd pre kw post s E Hpre Hkw).
    rewrite E, (existsb_hit title pre kw post Hkw). cbn [trace completion].
    unfold items_of, requests_of.
    now rewrite !flat_map_tests_tail by reflexivity.
  - rewrite (existsb_miss title _ Hall).
    destruct (request_accepted base link) eqn:Ha.
    + rewrite (title_stage_miss base link arxiv_id item dd s Ha Hall).
      cbn [trace completion]. unfold items_of, requests_of.
      now rewrite !flat_map_tests_tail by reflexivity.
    + rewrite (title_stage_refused base link arxiv_id item dd s Ha Hall).
      cbn [trace completion].
      now rewrite items_of_tests, requests_of_tests.
Qed.

Lemma stage2_outputs (response : AbstractResponse) s :
  outputs (parse_abstract_page response s)
  = match PyStr.non_empty (blockquote_abstract response) with
    | Some text =>
        if existsb (hits (clean_abstract_of text)) (my_keywords s)
        then ([item_data (response_meta response)], [], Returned tt)
        else ([], [], Returned tt)
    | None => ([], [], Returned tt)
    end.
Proof.
  destruct response as [m page]. unfold outputs. cbn [blockquote_abstract response_meta].
  destruct (PyStr.truthy page) eqn:T.
  - destruct page as [[|c text]|]; try discriminate.
    assert (Hne : String c text <> EmptyString) by discriminate.
    change (PyStr.non_empty (Some (String c text))) with (Some (String c text)).
    cbv iota.
    destruct (scan_cases (clean_abstract_of (String c text)) (my_keywords s))
      as [(pre & kw & post & E & Hpre & Hkw) | Hall].
    + rewrite (stage2_hit m _ pre kw post s Hne E Hpre Hkw).
      rewrite E, (existsb_hit _ pre kw post Hkw). cbn [trace completion].
      unfold items_of, requests_of.
      now rewrite !flat_map_tests_tail by reflexivity.
    + rewrite (stage2_miss m _ s Hne Hall).
      rewrite (existsb_miss _ _ Hall). cbn [trace completion].
      unfold items_of, requests_of.
      now rewrite !flat_map_tests_tail by reflexivity.
  - rewrite (stage2_no_abstract m page s T), (non_empty_truthy _ T).
    reflexivity.
Qed.

Lemma parse_dt_same_outputs base anchors paper_dt s1 s2 :
  same_keywords s1 s2 ->
  outputs (parse_dt base anchors paper_dt s1)
  = outputs (parse_dt base anchors paper_dt s2).
Proof.
  intros [Ht Hk].
  destruct (PyStr.non_empty (item_anchor_name paper_dt)) as [a|] eqn:Ea.
  - destruct (PyStr.int (PyStr.last_field (PyStr.split a "item")))
      as [n|] eqn:En.
    + assert (Hid : paper_id_of paper_dt = Some n)
        by (unfold paper_id_of; now rewrite Ea).
      rewrite !(parse_dt_indexed _ _ _ _ _ Hid).
      destruct (past_bound anchors n); [reflexivity|].
      unfold entry_stage.
      destruct (PyStr.non_empty (abstract_href paper_dt)); [|reflexivity].
      destruct (following_dd paper_dt) as [dd|]; [|reflexivity].
      destruct (passes_gate (target_categories s1) dd) eqn:P.
      * rewrite (category_stage_pass _ _ _ _ s1 P).
        rewrite Ht in P. rewrite (category_stage_pass _ _ _ _ s2 P).
        rewrite !title_stage_outputs.
        now rewrite (existsb_same_members _ _ _ Hk).
      * rewrite (category_stage_gate_closed _ _ _ _ s1 P).
        rewrite Ht in P. now rewrite (category_stage_gate_closed _ _ _ _ s2 P).
    + now rewrite !(parse_dt_bad_index _ _ _ _ _ Ea En).
  - now rewrite !(parse_dt_no_anchor _ _ _ _ Ea).
Qed.

Lemma answer_same_outputs fetch rq s1 s2 :
  same_keywords s1 s2 ->
  outputs (answer fetch rq s1) = outputs (answer fetch rq s2).
Proof.
  intros [_ Hk]. unfold answer. destruct (fetch (url rq)); [|reflexivity].
  rewrite !stage2_outputs. cbn [blockquote_abstract].
  destruct (PyStr.non_empty o); [|reflexivity].
  now rewrite (existsb_same_members _ _ _ Hk).
Qed.

(** A loop whose iterations give the same outputs in two states gives
    the same outputs in the two states. *)
Lemma for_each_same_outputs {A} (body : A -> Gen unit) (xs : list A) s1 s2 :
  (forall x, read_only (body x)) ->
  (forall x, outputs (body x s1) = outputs (body x s2)) ->
  outputs (for_each xs body s1) = outputs (for_each xs body s2).
Proof.
  intros Hro Hsame. induction xs as [|x xs IH]; simpl; [reflexivity|].
  unfold outputs in *. unfold bind.
  specialize (Hsame x). injection Hsame as Hi Hr Hc. rewrite Hc.
  destruct (completion (body x s2)); cbn [trace completion].
  - rewrite !(Hro x). injection IH as IHi IHr IHc.
    rewrite !items_of_app, !requests_of_app. congruence.
  - congruence.
Qed.

Lemma collect_anchors_any_state (lis : list (option string)) (acc : list Z) s1 s2 :
  completion (collect_anchors lis acc s1) = completion (collect_anchors lis acc s2).
Proof.
  revert acc. induction lis as [|li lis IH]; intros acc; simpl; [reflexivity|].
  destruct (PyStr.non_empty li) as [href|]; [|apply IH].
  destruct (PyStr.contains href "item"); [|apply IH].
  destruct (PyStr.int (PyStr.last_field (PyStr.split href "item")))
    as [n|] eqn:En.
  - rewrite (bind_returned _ _ s1 [] n (int_returns _ n s1 En)).
    rewrite (bind_returned _ _ s2 [] n (int_returns _ n s2 En)).
    apply IH.
  - rewrite (bind_raised _ _ s1 [] ValueError (int_raises _ s1 En)).
    now rewrite (bind_raised _ _ s2 [] ValueError (int_raises _ s2 En)).
Qed.

Lemma parse_same_outputs (response : ListingResponse) s1 s2 :
  same_keywords s1 s2 ->
  outputs (parse response s1) = outputs (parse response s2).
Proof.
  intros Hs.
  pose proof (collect_anchors_any_state (dlpage_li_hrefs response) [] s1 s2) as C.
  destruct (collect_anchors_run (dlpage_li_hrefs response) [] s1)
    as [(ns & _ & E1) | E1];
    destruct (collect_anchors_run (dlpage_li_hrefs response) [] s2)
      as [(ns2 & _ & E2) | E2];
    rewrite E1, E2 in C; cbn [completion] in C; try discriminate.
  - injection C as C. subst ns2.
    rewrite (parse_run response _ s1 E1), (parse_run response _ s2 E2).
    apply for_each_same_outputs.
    + intros x. apply read_only_parse_dt.
    + intros x. now apply parse_dt_same_outputs.
  - now rewrite (parse_raised response s1 E1), (parse_raised response s2 E2).
Qed.

End KeywordSet.

(** X10. The keyword list counts as a set: two spiders with the same
    target categories whose keyword lists have the same members, in
    whatever order and with whatever repetitions, yield the same items
    and requests from every listing page, end the parse the same way,
    and hand the same items to the sink over the whole crawl. *)
Theorem keyword_order_irrelevant `{SetOrder} `{RequestCheck}
    (fetch : Fetch) (response : ListingResponse) (s1 s2 : Spider) :
  same_keywords s1 s2 ->
  outputs (parse response s1) = outputs (parse response s2)
  /\ items_of (trace (crawl fetch response s1))
     = items_of (trace (crawl fetch response s2)).
Proof.
  intros Hs. pose proof (parse_same_outputs response s1 s2 Hs) as Hp.
  split; [exact Hp|].
  unfold crawl, with_answers. cbn [trace]. rewrite !items_of_app.
  unfold outputs in Hp. injection Hp as Hi Hr _. rewrite Hi, Hr.
  f_equal. rewrite !(read_only_parse response).
  pose proof (for_each_same_outputs (answer fetch)
                (requests_of (trace (parse response s2))) s1 s2
                (read_only_answer fetch)
                (fun rq => answer_same_outputs fetch rq s1 s2 Hs)) as Ha.
  unfold outputs in Ha. now injection Ha as Ha _ _.
Qed.

(** ** Empty texts *)

Section EmptyText.
Context `{SetOrder}.
Context `{RequestCheck}.

Lemma prefix_empty (s : string) : prefix EmptyString s = true.
Proof. now destruct s. Qed.

Lemma lower_empty (kw : string) : PyStr.lower kw = EmptyString -> kw = EmptyString.
Proof. destruct kw; [reflexivity | discriminate]. Qed.

(** No pattern but the empty one occurs in the empty text. *)
Lemma empty_text_misses (kws : list string) :
  Forall (fun kw => kw <> EmptyString) kws ->
  Forall (fun k => hits EmptyString k = false) kws.
Proof.
  intros Hne. induction Hne as [|k kws Hk _ IH]; constructor; [|exact IH].
  unfold hits. destruct k as [|c k]; [now elim Hk | reflexivity].
Qed.

Lemma clean_title_missing (title_text : option string) :
  PyStr.truthy title_text = false -> clean_title_of title_text = EmptyString.
Proof. intros T. unfold clean_title_of. now rewrite (non_empty_truthy _ T). Qed.

End EmptyText.

(** X11. An entry without a usable title is never decided by stage 1:
    when the normalized title is empty (title text missing, empty, or
    nothing but the label and whitespace) and no keyword is the empty
    string, an entry that passes the category gate, and whose abstract
    link [response.urljoin] and [scrapy.Request] accept, has every
    keyword tried against the empty text and its abstract page
    requested. *)
Theorem empty_title_escalates `{SetOrder} `{RequestCheck}
    (base link arxiv_id : string) (dd : Dd) (s : Spider) :
  passes_gate (target_categories s) dd = true ->
  clean_title_of (list_title_string dd) = EmptyString ->
  Forall (fun kw => kw <> EmptyString) (my_keywords s) ->
  request_accepted base link = true ->
  category_stage base link arxiv_id dd s
  = {| final := s;
       trace := tests (my_keywords s) EmptyString
                ++ [YieldRequest
                      (escalation base link (item_of arxiv_id dd) EmptyString)];
       completion := Returned tt |}.
Proof.
  intros P Et Hne Ha. rewrite (category_stage_pass _ _ _ _ _ P).
  pose proof (title_stage_miss base link arxiv_id (item_of arxiv_id dd) dd s)
    as Hm. cbv zeta in Hm. rewrite Et in Hm.
  apply Hm; [exact Ha | now apply empty_text_misses].
Qed.

(** X12. An abstract block that holds text but nothing after
    normalization (only the label and whitespace) is reported as a
    keyword mismatch at info level, not as a missing abstract: every
    keyword is tried against the empty text and nothing is yielded. *)
Theorem blank_abstract_is_mismatch
    (m : Meta) (text : string) (s : Spider) :
  text <> EmptyString ->
  clean_abstract_of text = EmptyString ->
  Forall (fun kw => kw <> EmptyString) (my_keywords s) ->
  parse_abstract_page {| response_meta := m; blockquote_abstract := Some text |} s
  = {| final := s;
       trace := tests (my_keywords s) EmptyString
                ++ [Log INFO (keyword_skip_message (id (item_data m)))];
       completion := Returned tt |}.
Proof.
  intros Hne Ea Hkw.
  pose proof (stage2_miss m text s) as Hm. cbv zeta in Hm. rewrite Ea in Hm.
  apply Hm; [exact Hne | now apply empty_text_misses].
Qed.

(** X13. One log record per abstract page: the callback logs exactly one
    record on every response; its level is WARNING exactly when the
    abstract text is missing or empty and INFO otherwise, never DEBUG. *)
Theorem callback_logs_once (response : AbstractResponse) (s : Spider) :
  exists lvl msg,
    logs_of (trace (parse_abstract_page response s)) = [(lvl, msg)]
    /\ (lvl = WARNING <-> PyStr.truthy (blockquote_abstract response) = false)
    /\ (lvl = INFO <-> PyStr.truthy (blockquote_abstract response) = true).
Proof.
  destruct response as [m page]. cbn [blockquote_abstract].
  destruct (PyStr.truthy page) eqn:T.
  - destruct page as [[|c text]|]; try discriminate.
    assert (Hne : String c text <> EmptyString) by discriminate.
    destruct (scan_cases (clean_abstract_of (String c text)) (my_keywords s))
      as [(pre & kw & post & E & Hpre & Hkw) | Hall].
    + rewrite (stage2_hit m _ pre kw post s Hne E Hpre Hkw). cbn [trace].
      unfold logs_of. rewrite flat_map_tests_tail by reflexivity.
      eexists INFO, _. split; [reflexivity|].
      split; split; intros; try reflexivity; discriminate.
    + rewrite (stage2_miss m _ s Hne Hall). cbn [trace].
      unfold logs_of. rewrite flat_map_tests_tail by reflexivity.
      eexists INFO, _. split; [reflexivity|].
      split; split; intros; try reflexivity; discriminate.
  - rewrite (stage2_no_abstract m page s T). cbn [trace].
    eexists WARNING, _. split; [reflexivity|].
    split; split; intros; try reflexivity; discriminate.
Qed.

(** ** Splitting at a separator *)

Section Splitting.

Lemma split_from_skip (sep : string) (k : nat) (cur s : string) :
  PyStr.split_from sep k cur s = PyStr.split_from sep 0 cur (drop k s).
Proof.
  revert k. induction s as [|c s IH]; intros [|k]; try reflexivity.
  simpl. apply IH.
Qed.

Lemma drop_append (a b : string) : drop (String.length a) (a ++ b) = b.
Proof. induction a as [|c a IH]; simpl; [now destruct b | exact IH]. Qed.

Lemma length_append (a b : string) :
  String.length (a ++ b) = String.length a + String.length b.
Proof. induction a as [|c a IH]; simpl; [reflexivity | now rewrite IH]. Qed.

Lemma split_from_not_nil (sep : string) (k : nat) (cur s : string) :
  PyStr.split_from sep k cur s <> [].
Proof.
  revert k cur. induction s as [|c s IH]; intros k cur;
    cbn [PyStr.split_from]; [discriminate|].
  destruct k; [|apply IH].
  destruct (PyStr.startswith (String c s) sep); [discriminate | apply IH].
Qed.

Lemma last_after_head {A} (x : A) (l : list A) (d : A) :
  l <> [] -> last (x :: l) d = last l d.
Proof. destruct l; [now intros E | reflexivity]. Qed.

Lemma contains_empty_text (sep : string) :
  sep <> EmptyString -> PyStr.contains EmptyString sep = false.
Proof. destruct sep; [now intros E | reflexivity]. Qed.

Lemma regroup (cur sep rest pre L : string) :
  rest = (pre ++ L)%string ->
  (cur ++ (sep ++ rest))%string = ((cur ++ sep ++ pre) ++ L)%string.
Proof. intros ->. now rewrite !append_assoc. Qed.

(** The last field of a split: the text is some [pre] followed by it;
    [pre] is empty when the separator does not occur, and otherwise
    [pre] ends with the separator and the field is free of it. *)
Lemma last_field_from (sep : string) :
  sep <> EmptyString ->
  forall n s cur,
    String.length s <= n ->
    exists pre,
      (cur ++ s)%string
      = (pre ++ last (PyStr.split_from sep 0 cur s) EmptyString)%string
      /\ (PyStr.contains s sep = false -> pre = EmptyString)
      /\ (PyStr.contains s sep = true ->
          PyStr.contains (last (PyStr.split_from sep 0 cur s) EmptyString) sep
          = false
          /\ exists p, pre = (p ++ sep)%string).
Proof.
  intros Hsep. induction n as [|n IH]; intros s cur Hlen.
  - destruct s; [|simpl in Hlen; lia].
    exists EmptyString. rewrite (contains_empty_text sep Hsep).
    split; [cbn; apply append_empty_r | split; [reflexivity | discriminate]].
  - destruct s as [|c s].
    + exists EmptyString. rewrite (contains_empty_text sep Hsep).
      split; [cbn; apply append_empty_r | split; [reflexivity | discriminate]].
    + cbn [PyStr.split_from PyStr.contains].
      destruct (PyStr.startswith (String c s) sep) eqn:P.
      * apply startswith_spec in P as [rest Es].
        destruct sep as [|c0 sep']; [now elim Hsep|].
        simpl in Es. injection Es as -> ->.
        rewrite split_from_skip.
        replace (String.length (String c0 sep') - 1) with (String.length sep')
          by (simpl; lia).
        rewrite drop_append.
        rewrite last_after_head by apply split_from_not_nil.
        destruct (IH rest EmptyString) as (pre & Epre & Hno & Hyes).
        { simpl in Hlen. rewrite length_append in Hlen. lia. }
        cbn [orb]. simpl in Epre.
        remember (last (PyStr.split_from (String c0 sep') 0 EmptyString rest)
                    EmptyString) as L eqn:EL.
        destruct (PyStr.contains rest (String c0 sep')) eqn:C.
        -- destruct (Hyes eq_refl) as [Hfree [p Ep]].
           exists (cur ++ String c0 sep' ++ pre)%string. split.
           ++ exact (regroup cur (String c0 sep') rest pre L Epre).
           ++ split; [discriminate|]. intros _. split; [exact Hfree|].
              exists (cur ++ String c0 sep' ++ p)%string.
              rewrite Ep. now rewrite !append_assoc.
        -- rewrite (Hno eq_refl) in Epre. simpl in Epre. subst rest.
           exists (cur ++ String c0 sep')%string. split.
           ++ symmetry. exact (append_assoc cur (String c0 sep') L).
           ++ split; [discriminate|]. intros _. split; [exact C|].
              now exists cur.
      * cbn [orb].
        destruct (IH s (cur ++ String c EmptyString)%string)
          as (pre & Epre & Hno & Hyes); [simpl in Hlen; lia|].
        exists pre. split; [|split; assumption].
        rewrite <- Epre. now rewrite append_assoc.
Qed.

(** A text in which the separator does not occur is one field. *)
Lemma split_from_absent (sep cur s : string) :
  PyStr.contains s sep = false ->
  PyStr.split_from sep 0 cur s = [(cur ++ s)%string].
Proof.
  revert cur. induction s as [|c s IH]; intros cur C.
  - simpl. now rewrite append_empty_r.
  - cbn [PyStr.contains] in C. apply orb_false_iff in C as [P C].
    cbn [PyStr.split_from]. rewrite P, (IH _ C).
    now rewrite append_assoc.
Qed.

Lemma startswith_other_head (c c0 : ascii) (s p : string) :
  c <> c0 -> PyStr.startswith (String c s) (String c0 p) = false.
Proof.
  intros N. unfold PyStr.startswith. simpl.
  destruct (ascii_dec c0 c) as [E|_]; [now elim N | reflexivity].
Qed.

Lemma contains_head_char (c ch : ascii) (s : string) :
  PyStr.contains (String c s) (String ch EmptyString) = false ->
  c <> ch /\ PyStr.contains s (String ch EmptyString) = false.
Proof.
  cbn [PyStr.contains]. intros C. apply orb_false_iff in C as [P C].
  split; [|exact C]. intros ->.
  unfold PyStr.startswith in P. simpl in P.
  destruct (ascii_dec ch ch) as [_|N]; [|now elim N].
  now rewrite prefix_empty in P.
Qed.

(** An anchor [pre ++ "item" ++ d]: with no letter i in [pre] and no
    "item" in [d], the split is [[pre; d]]. *)
Lemma split_item_anchor (pre d cur : string) :
  PyStr.contains pre "i" = false -> PyStr.contains d "item" = false ->
  PyStr.split_from "item" 0 cur (pre ++ "item" ++ d)
  = [(cur ++ pre)%string; d].
Proof.
  intros Hpre Hd. revert cur Hpre. induction pre as [|c pre IH]; intros cur Hpre.
  - assert (P : PyStr.startswith ("item" ++ d) "item" = true)
      by (apply startswith_spec; now exists d).
    change (EmptyString ++ "item" ++ d)%string with (String "i" ("tem" ++ d)).
    change ("item" ++ d)%string with (String "i" ("tem" ++ d)) in P.
    cbn [PyStr.split_from]. rewrite P. rewrite append_empty_r.
    simpl. now rewrite (split_from_absent "item" EmptyString d Hd).
  - apply contains_head_char in Hpre as [N Hpre].
    change ((String c pre) ++ "item" ++ d)%string
      with (String c (pre ++ "item" ++ d)).
    cbn [PyStr.split_from]. rewrite (startswith_other_head c "i" _ "tem" N).
    rewrite (IH _ Hpre). now rewrite append_assoc.
Qed.

Lemma item_anchor_not_empty (pre d : string) :
  PyStr.non_empty (Some (pre ++ "item" ++ d)%string)
  = Some (pre ++ "item" ++ d)%string.
Proof. now destruct pre. Qed.

End Splitting.

(** X14. The id of an entry is the last path segment of its abstract
    link: the link is some [pre] followed by the id, the id holds no
    slash, and [pre] is empty (a link without a slash is its own id) or
    ends with a slash. *)
Theorem arxiv_id_is_last_segment (abstract_link : string) :
  let arxiv_id := PyStr.last_field (PyStr.split abstract_link "/") in
  PyStr.contains arxiv_id "/" = false
  /\ exists pre,
       abstract_link = (pre ++ arxiv_id)%string
       /\ (pre = EmptyString \/ exists p, pre = (p ++ "/")%string)
       /\ (PyStr.contains abstract_link "/" = false -> arxiv_id = abstract_link).
Proof.
  intros arxiv_id. subst arxiv_id. unfold PyStr.last_field, PyStr.split.
  assert (Hsep : "/"%string <> EmptyString) by discriminate.
  destruct (last_field_from "/" Hsep (String.length abstract_link)
              abstract_link EmptyString (le_n _))
    as (pre & Epre & Hno & Hyes).
  simpl in Epre.
  destruct (PyStr.contains abstract_link "/") eqn:C.
  - destruct (Hyes eq_refl) as [Hfree [p Ep]]. split; [exact Hfree|].
    exists pre. split; [exact Epre|]. split; [right; now exists p | discriminate].
  - rewrite (Hno eq_refl) in Epre. simpl in Epre. rewrite <- Epre.
    split; [exact C|]. exists EmptyString. split; [reflexivity|].
    split; [now left | reflexivity].
Qed.

(** X15. The position index is the integer after "item": for an anchor
    name or navigation link [pre ++ "item" ++ d] with no letter i in
    [pre] and no "item" in [d], the index of the entry and the anchor of
    the navigation link are both [int(d)]; if [d] is no integer the
    parse raises. *)
Theorem index_is_integer_after_item (pre d : string) :
  PyStr.contains pre "i" = false -> PyStr.contains d "item" = false ->
  (forall paper_dt,
      item_anchor_name paper_dt = Some (pre ++ "item" ++ d)%string ->
      paper_id_of paper_dt = PyStr.int d)
  /\ anchor_suffixes [Some (pre ++ "item" ++ d)%string] = [d]
  /\ forall s,
       completion (collect_anchors [Some (pre ++ "item" ++ d)%string] [] s)
       = match PyStr.int d with
         | Some n => Returned [n]
         | None => Raised ValueError
         end.
Proof.
  intros Hpre Hd.
  assert (Hsplit : PyStr.last_field (PyStr.split (pre ++ "item" ++ d) "item") = d).
  { unfold PyStr.split. now rewrite (split_item_anchor pre d EmptyString Hpre Hd). }
  assert (Hc : PyStr.contains (pre ++ "item" ++ d) "item" = true)
    by (apply contains_spec; now exists pre, d).
  split; [|split].
  - intros paper_dt E. unfold paper_id_of.
    now rewrite E, item_anchor_not_empty, Hsplit.
  - unfold anchor_suffixes. cbn [flat_map].
    now rewrite item_anchor_not_empty, Hc, Hsplit.
  - intros s. cbn [collect_anchors].
    rewrite item_anchor_not_empty, Hc, Hsplit.
    destruct (PyStr.int d) as [n|] eqn:En.
    + now rewrite (bind_returned _ _ s [] n (int_returns _ n s En)).
    + now rewrite (bind_raised _ _ s [] ValueError (int_raises _ s En)).
Qed.

(** ** Categories *)

Section Categories.
Context `{SetOrder}.
Context `{RequestCheck}.

Lemma startswith_char (c ch : ascii) (s : string) :
  PyStr.startswith (String c s) (String ch EmptyString)
  = if ascii_dec ch c then true else false.
Proof.
  unfold PyStr.startswith. simpl.
  destruct (ascii_dec ch c); [apply prefix_empty | reflexivity].
Qed.

(** A character pattern occurs in [g ++ c] when it occurs in [g] or is
    [c]. *)
Lemma contains_snoc_char (g : string) (c ch : ascii) :
  PyStr.contains (g ++ String c EmptyString) (String ch EmptyString)
  = PyStr.contains g (String ch EmptyString)
    || (if ascii_dec ch c then true else false).
Proof.
  induction g as [|x g IH].
  - cbn [append PyStr.contains]. rewrite startswith_char.
    now destruct (ascii_dec ch c).
  - change ((String x g) ++ String c EmptyString)%string
      with (String x (g ++ String c EmptyString)).
    cbn [PyStr.contains]. rewrite IH, !startswith_char.
    now rewrite orb_assoc.
Qed.

Lemma eqb_char_dec (c ch : ascii) :
  (c =? ch)%char = if ascii_dec ch c then true else false.
Proof.
  destruct (ascii_dec ch c) as [->|N].
  - apply Ascii.eqb_refl.
  - apply Ascii.eqb_neq. congruence.
Qed.

(** Every captured group is non-empty and holds no closing parenthesis. *)
Lemma findall_from_groups (s : string) (cur : option string) :
  (forall g, cur = Some g -> PyStr.contains g ")" = false) ->
  Forall (fun c => c <> EmptyString /\ PyStr.contains c ")" = false)
    (PyStr.findall_parens_from cur s).
Proof.
  revert cur. induction s as [|c s IH]; intros cur Hcur; simpl; [constructor|].
  destruct cur as [g|].
  - rewrite (eqb_char_dec c ")").
    destruct (ascii_dec ")" c) as [E|N].
    + destruct g as [|x g]; [apply IH; discriminate|].
      constructor; [|apply IH; discriminate].
      split; [discriminate | now apply Hcur].
    + apply IH. intros g' Eg. injection Eg as <-.
      rewrite contains_snoc_char, (Hcur g eq_refl).
      now destruct (ascii_dec ")" c).
  - destruct (c =? "(")%char; apply IH; [|discriminate].
    intros g Eg. injection Eg as <-. reflexivity.
Qed.

(** Without a closing parenthesis nothing is captured. *)
Lemma findall_no_close (s : string) (cur : option string) :
  PyStr.contains s ")" = false -> PyStr.findall_parens_from cur s = [].
Proof.
  revert cur. induction s as [|c s IH]; intros cur C; simpl; [reflexivity|].
  apply contains_head_char in C as [N C].
  destruct cur as [g|].
  - rewrite (proj2 (Ascii.eqb_neq c ")") N). now apply IH.
  - destruct (c =? "(")%char; now apply IH.
Qed.

(** Without an opening parenthesis nothing is captured. *)
Lemma findall_no_open (s : string) :
  PyStr.contains s "(" = false -> PyStr.findall_parens_from None s = [].
Proof.
  induction s as [|c s IH]; intros C; simpl; [reflexivity|].
  apply contains_head_char in C as [N C].
  rewrite (proj2 (Ascii.eqb_neq c "(") N). now apply IH.
Qed.

Lemma list_of_set_nil : list_of_set [] = [].
Proof.
  destruct (list_of_set []) as [|x l] eqn:E; [reflexivity|].
  assert (Hin : In x (list_of_set [])) by (rewrite E; now left).
  apply (proj1 (list_of_set_In _ _)) in Hin. contradiction.
Qed.

Lemma categories_groups (subjects_text : option string) (c : string) :
  In c (categories_of subjects_text) ->
  c <> EmptyString /\ PyStr.contains c ")" = false.
Proof.
  unfold categories_of.
  destruct (PyStr.non_empty subjects_text) as [t|]; [|contradiction].
  intros Hin. apply (proj1 (list_of_set_In _ _)) in Hin.
  pose proof (findall_from_groups t None) as Hall.
  rewrite Forall_forall in Hall. apply Hall; [discriminate | exact Hin].
Qed.

End Categories.

(** X16. The categories of an entry: the list is free of duplicates,
    every category is one of the parenthesized groups of the subjects
    text, none is the empty string and none holds a closing
    parenthesis; a missing or empty subjects text gives no category. *)
Theorem categories_well_formed `{SetOrder} (subjects_text : option string) :
  let cs := categories_of subjects_text in
  NoDup cs
  /\ (forall c, In c cs ->
        c <> EmptyString /\ PyStr.contains c ")" = false
        /\ exists text, subjects_text = Some text
                        /\ In c (PyStr.findall_parens text))
  /\ (PyStr.truthy subjects_text = false -> cs = []).
Proof.
  intros cs. subst cs. split; [|split].
  - unfold categories_of. destruct (PyStr.non_empty subjects_text);
      [apply list_of_set_NoDup | constructor].
  - intros c Hin. destruct (categories_groups subjects_text c Hin) as [Hne Hc].
    split; [exact Hne|]. split; [exact Hc|].
    unfold categories_of in Hin.
    destruct (PyStr.non_empty subjects_text) as [t|] eqn:E; [|contradiction].
    apply non_empty_some in E as [-> _]. exists t. split; [reflexivity|].
    now apply (proj1 (list_of_set_In _ _)).
  - intros T. unfold categories_of. now rewrite (non_empty_truthy _ T).
Qed.

(** X17. A subjects text without a parenthesized group: when the
    subjects text is present but holds no opening or no closing
    parenthesis, the entry is skipped with the debug log, whatever the
    target categories and the title are. *)
Theorem subjects_without_group_skipped `{SetOrder} `{RequestCheck}
    (base link arxiv_id text : string) (dd : Dd) (s : Spider) :
  subjects_text_of dd = Some text -> text <> EmptyString ->
  PyStr.contains text "(" = false \/ PyStr.contains text ")" = false ->
  category_stage base link arxiv_id dd s
  = {| final := s; trace := [Log DEBUG (category_skip_message arxiv_id)];
       completion := Returned tt |}.
Proof.
  intros E Hne Hpar.
  assert (T : PyStr.truthy (subjects_text_of dd) = true).
  { rewrite E. destruct text; [now elim Hne | reflexivity]. }
  apply category_stage_skip; [exact T|].
  assert (Hnil : categories_of (subjects_text_of dd) = []).
  { unfold categories_of, PyStr.non_empty. rewrite T, E.
    unfold PyStr.findall_parens.
    destruct Hpar as [Ho | Hc].
    - rewrite (findall_no_open text Ho). apply list_of_set_nil.
    - rewrite (findall_no_close text None Hc). apply list_of_set_nil. }
  now rewrite Hnil.
Qed.

(** X19. Target categories that no entry can have: when every target is
    the empty string or holds a closing parenthesis, every entry with a
    subjects text is skipped with the debug log. *)
Theorem impossible_targets_skip_all `{SetOrder} `{RequestCheck}
    (base link arxiv_id : string) (dd : Dd) (s : Spider) :
  (forall c, In c (target_categories s) ->
             c = EmptyString \/ PyStr.contains c ")" = true) ->
  PyStr.truthy (subjects_text_of dd) = true ->
  category_stage base link arxiv_id dd s
  = {| final := s; trace := [Log DEBUG (category_skip_message arxiv_id)];
       completion := Returned tt |}.
Proof.
  intros Himp T. apply category_stage_skip; [exact T|].
  apply intersection_empty. intros c Hc Ht.
  destruct (categories_groups _ c Hc) as [Hne Hfree].
  destruct (Himp c Ht) as [-> | Hp]; [now elim Hne | congruence].
Qed.

(** ** The configured categories *)

Section Configuration.
Context `{SetOrder}.
Context `{RequestCheck}.

Lemma split_char_fields (ch : ascii) (s cur : string) :
  PyStr.contains cur (String ch EmptyString) = false ->
  Forall (fun f => PyStr.contains f (String ch EmptyString) = false)
    (PyStr.split_from (String ch EmptyString) 0 cur s).
Proof.
  revert cur. induction s as [|c s IH]; intros cur Hcur;
    cbn [PyStr.split_from].
  - now constructor.
  - rewrite startswith_char. destruct (ascii_dec ch c) as [E|N].
    + constructor; [exact Hcur|]. apply IH. reflexivity.
    + apply IH. rewrite contains_snoc_char, Hcur.
      now destruct (ascii_dec ch c).
Qed.

Lemma lstrip_suffix (s : string) : exists pre, s = (pre ++ PyStr.lstrip s)%string.
Proof.
  induction s as [|c s [pre IH]]; simpl.
  - now exists EmptyString.
  - destruct (PyStr.isspace c).
    + exists (String c pre). simpl. now rewrite <- IH.
    + now exists EmptyString.
Qed.

Lemma rstrip_prefix (s : string) : exists post, s = (PyStr.rstrip s ++ post)%string.
Proof.
  induction s as [|c s [post IH]]; simpl.
  - now exists EmptyString.
  - destruct (PyStr.rstrip s) as [|x r].
    + simpl in IH. destruct (PyStr.isspace c).
      * now exists (String c s).
      * exists s. reflexivity.
    + exists post. simpl. now rewrite IH at 1.
Qed.

(** What occurs in the stripped text occurs in the text. *)
Lemma strip_contains (s p : string) :
  PyStr.contains (PyStr.strip s) p = true -> PyStr.contains s p = true.
Proof.
  unfold PyStr.strip. rewrite !contains_spec. intros [a [b E]].
  destruct (lstrip_suffix s) as [pre Hl].
  destruct (rstrip_prefix (PyStr.lstrip s)) as [post Hr].
  exists (pre ++ a)%string, (b ++ post)%string.
  rewrite Hl at 1. rewrite Hr at 1. rewrite E.
  now rewrite !append_assoc.
Qed.

Lemma lstrip_idem (s : string) : PyStr.lstrip (PyStr.lstrip s) = PyStr.lstrip s.
Proof.
  induction s as [|c s IH]; simpl; [reflexivity|].
  destruct (PyStr.isspace c) eqn:W; [exact IH|].
  simpl. now rewrite W.
Qed.

Lemma rstrip_idem (s : string) : PyStr.rstrip (PyStr.rstrip s) = PyStr.rstrip s.
Proof.
  induction s as [|c s IH]; simpl; [reflexivity|].
  destruct (PyStr.rstrip s) as [|x r] eqn:R.
  - destruct (PyStr.isspace c) eqn:W; simpl; [reflexivity | now rewrite W].
  - cbn [PyStr.rstrip]. cbn [PyStr.rstrip] in IH. now rewrite IH.
Qed.

(** The head of a left-stripped text is no whitespace. *)
Lemma lstrip_head (s : string) :
  match PyStr.lstrip s with
  | EmptyString => True
  | String c _ => PyStr.isspace c = false
  end.
Proof.
  induction s as [|c s IH]; simpl; [exact I|].
  destruct (PyStr.isspace c) eqn:W; [exact IH | exact W].
Qed.

Lemma lstrip_rstrip_head (s : string) :
  match s with
  | EmptyString => True
  | String c _ => PyStr.isspace c = false
  end ->
  PyStr.lstrip (PyStr.rstrip s) = PyStr.rstrip s.
Proof.
  destruct s as [|c s]; [reflexivity|]. intros W. cbn [PyStr.rstrip].
  destruct (PyStr.rstrip s); rewrite ?W; simpl; now rewrite W.
Qed.

Lemma strip_idem (s : string) : PyStr.strip (PyStr.strip s) = PyStr.strip s.
Proof.
  unfold PyStr.strip.
  rewrite (lstrip_rstrip_head (PyStr.lstrip s) (lstrip_head s)).
  apply rstrip_idem.
Qed.

Lemma append_inj_prefix (p a b : string) :
  (p ++ a)%string = (p ++ b)%string -> a = b.
Proof. induction p as [|c p IH]; simpl; intros E; [exact E|]. injection E. auto. Qed.

Lemma append_inj_suffix (t a b : string) :
  (a ++ t)%string = (b ++ t)%string -> a = b.
Proof.
  revert b. induction a as [|x a IH]; intros [|y b] E; simpl in E.
  - reflexivity.
  - apply (f_equal String.length) in E. simpl in E.
    rewrite length_append in E. lia.
  - apply (f_equal String.length) in E. simpl in E.
    rewrite length_append in E. lia.
  - injection E as -> E. f_equal. now apply IH.
Qed.

Lemma NoDup_map_inj {A B} (f : A -> B) (l : list A) :
  (forall x y, f x = f y -> x = y) -> NoDup l -> NoDup (map f l).
Proof.
  intros Hinj Hnd. induction Hnd as [|x l Hx _ IH]; simpl; constructor.
  - intros Hin. apply in_map_iff in Hin as [y [E Hy]].
    apply Hinj in E. now subst y.
  - exact IH.
Qed.

End Configuration.

(** X18. The configured target categories: whatever the value of
    CATEGORIES, every target category has no surrounding whitespace and
    holds no comma, and there is at least one; without the variable the
    targets are astro-ph.GA and astro-ph.CO. *)
Theorem configured_targets_trimmed (env_categories : option string) :
  (forall c, In c (target_categories (init env_categories)) ->
             PyStr.strip c = c /\ PyStr.contains c "," = false)
  /\ target_categories (init env_categories) <> []
  /\ target_categories (init None) = ["astro-ph.GA"; "astro-ph.CO"].
Proof.
  split; [|split; [|reflexivity]].
  - intros c Hin. unfold init in Hin. cbn [target_categories] in Hin.
    apply in_map_iff in Hin as [f [<- Hf]]. split; [apply strip_idem|].
    destruct (PyStr.contains (PyStr.strip f) ",") eqn:C; [|reflexivity].
    apply strip_contains in C.
    pose proof (split_char_fields ","%char
                  match env_categories with
                  | Some v => v
                  | None => "astro-ph.GA, astro-ph.CO"
                  end EmptyString eq_refl) as Hall.
    rewrite Forall_forall in Hall. specialize (Hall f Hf). congruence.
  - unfold init. cbn [target_categories]. intros E.
    apply map_eq_nil in E. now apply split_from_not_nil in E.
Qed.

(** X20. The start URLs: one listing URL for every target category and
    no other, without repetition even when CATEGORIES names a category
    twice. *)
Theorem start_urls_distinct `{SetOrder} (s : Spider) :
  NoDup (start_urls s)
  /\ (forall u, In u (start_urls s) <->
        exists cat, In cat (target_categories s)
                    /\ u = ("https://arxiv.org/list/" ++ cat ++ "/new")%string)
  /\ length (start_urls s) <= length (target_categories s).
Proof.
  unfold start_urls. split; [|split].
  - apply NoDup_map_inj; [|apply list_of_set_NoDup].
    intros x y E. apply append_inj_prefix in E.
    now apply append_inj_suffix in E.
  - intros u. rewrite in_map_iff. split.
    + intros [cat [<- Hin]]. exists cat. split; [|reflexivity].
      now apply (proj1 (list_of_set_In _ _)).
    + intros [cat [Hin ->]]. exists cat. split; [reflexivity|].
      now apply list_of_set_In.
  - rewrite length_map. apply NoDup_incl_length; [apply list_of_set_NoDup|].
    intros x Hx. now apply (proj1 (list_of_set_In _ _)).
Qed.

(** ** Normalized texts *)

Section Normalized.

Lemma replace_from_skip (old new : string) (k : nat) (s : string) :
  PyStr.replace_from old new k s = PyStr.replace_from old new 0 (drop k s).
Proof.
  revert k. induction s as [|c s IH]; intros [|k]; try reflexivity.
  simpl. apply IH.
Qed.

(** A label in front of a text that does not hold it is removed, and
    nothing else. *)
Lemma replace_label_front (old rest : string) :
  old <> EmptyString -> PyStr.contains rest old = false ->
  PyStr.replace (old ++ rest) old EmptyString = rest.
Proof.
  intros Hne C. destruct old as [|c old]; [now elim Hne|].
  assert (P : PyStr.startswith (String c (old ++ rest)) (String c old) = true)
    by (apply startswith_spec; now exists rest).
  unfold PyStr.replace.
  change ((String c old) ++ rest)%string with (String c (old ++ rest)).
  cbn [PyStr.replace_from]. rewrite P. cbn [append].
  rewrite replace_from_skip.
  replace (String.length (String c old) - 1) with (String.length old)
    by (simpl; lia).
  rewrite drop_append. now apply replace_absent.
Qed.

Lemma isspace_lower_char (c : ascii) :
  PyStr.isspace (PyStr.lower_char c) = PyStr.isspace c.
Proof. destruct c as [[] [] [] [] [] [] [] []]; reflexivity. Qed.

Lemma lstrip_lower (s : string) :
  PyStr.lstrip (PyStr.lower s) = PyStr.lower (PyStr.lstrip s).
Proof.
  induction s as [|c s IH]; simpl; [reflexivity|].
  rewrite isspace_lower_char. now destruct (PyStr.isspace c).
Qed.

Lemma rstrip_lower (s : string) :
  PyStr.rstrip (PyStr.lower s) = PyStr.lower (PyStr.rstrip s).
Proof.
  induction s as [|c s IH]; simpl; [reflexivity|].
  rewrite IH, isspace_lower_char.
  destruct (PyStr.rstrip s); simpl; [|reflexivity].
  now destruct (PyStr.isspace c).
Qed.

Lemma strip_lower (s : string) :
  PyStr.strip (PyStr.lower s) = PyStr.lower (PyStr.strip s).
Proof. unfold PyStr.strip. now rewrite lstrip_lower, rstrip_lower. Qed.

(** A pattern that begins with a capital letter occurs in no lower-case
    text. *)
Lemma lower_has_no_capital (a : ascii) (p u : string) :
  (forall x, PyStr.lower_char x <> a) ->
  PyStr.contains (PyStr.lower u) (String a p) = false.
Proof.
  intros Ha. induction u as [|c u IH]; [reflexivity|].
  cbn [PyStr.lower PyStr.contains].
  now rewrite (startswith_other_head _ a _ p (Ha c)), IH.
Qed.

Lemma no_lower_is_T (x : ascii) : PyStr.lower_char x <> "T"%char.
Proof. destruct x as [[] [] [] [] [] [] [] []]; discriminate. Qed.

Lemma no_lower_is_A (x : ascii) : PyStr.lower_char x <> "A"%char.
Proof. destruct x as [[] [] [] [] [] [] [] []]; discriminate. Qed.

Lemma normal_form_fixed (label r : string) (a : ascii) (p : string) :
  label = String a p -> (forall x, PyStr.lower_char x <> a) ->
  let x := PyStr.lower (PyStr.strip r) in
  PyStr.lower x = x /\ PyStr.strip x = x
  /\ PyStr.lower (PyStr.strip (PyStr.replace x label EmptyString)) = x.
Proof.
  intros -> Ha x. subst x.
  assert (Hs : PyStr.strip (PyStr.lower (PyStr.strip r))
               = PyStr.lower (PyStr.strip r))
    by now rewrite strip_lower, strip_idem.
  split; [apply lower_idem|]. split; [exact Hs|].
  rewrite (replace_absent _ _ _ (lower_has_no_capital a p _ Ha)).
  now rewrite Hs, lower_idem.
Qed.

End Normalized.

(** X21. A label in front: when the label occurs nowhere else, the
    normalized title of ["Title:" ++ rest] and the normalized abstract
    of ["Abstract:" ++ rest] are [rest] stripped and lower-cased. *)
Theorem label_in_front_removed (rest : string) :
  (PyStr.contains rest "Title:" = false ->
   clean_title_of (Some ("Title:" ++ rest)%string)
   = PyStr.lower (PyStr.strip rest))
  /\ (PyStr.contains rest "Abstract:" = false ->
      clean_abstract_of ("Abstract:" ++ rest)
      = PyStr.lower (PyStr.strip rest)).
Proof.
  split; intros C.
  - unfold clean_title_of.
    change (PyStr.non_empty (Some ("Title:" ++ rest)%string))
      with (Some ("Title:" ++ rest)%string).
    cbv beta iota. rewrite (replace_label_front "Title:" rest); auto.
    discriminate.
  - unfold clean_abstract_of.
    rewrite (replace_label_front "Abstract:" rest); auto. discriminate.
Qed.

(** X22. Normal forms: a normalized title or abstract is lower-case,
    has no surrounding whitespace, and normalizing it again gives it
    back. *)
Theorem normalization_idempotent :
  (forall title_text,
      let x := clean_title_of title_text in
      PyStr.lower x = x /\ PyStr.strip x = x
      /\ clean_title_of (Some x) = x)
  /\ (forall abstract_text,
         let x := clean_abstract_of abstract_text in
         PyStr.lower x = x /\ PyStr.strip x = x
         /\ clean_abstract_of x = x).
Proof.
  split.
  - intros title_text. cbv zeta.
    destruct (PyStr.non_empty title_text) as [t|] eqn:E.
    + assert (Ex : clean_title_of title_text
                   = PyStr.lower (PyStr.strip
                                    (PyStr.replace t "Title:" EmptyString)))
        by (unfold clean_title_of; now rewrite E).
      rewrite Ex.
      destruct (normal_form_fixed "Title:"
                  (PyStr.replace t "Title:" EmptyString) "T" "itle:" eq_refl
                  no_lower_is_T) as (Hl & Hs & Hr).
      split; [exact Hl|]. split; [exact Hs|].
      remember (PyStr.lower (PyStr.strip (PyStr.replace t "Title:" EmptyString)))
        as x eqn:Hx.
      destruct x as [|c x]; [reflexivity | exact Hr].
    + assert (Ex : clean_title_of title_text = EmptyString)
        by (unfold clean_title_of; now rewrite E).
      rewrite Ex. repeat split.
  - intros abstract_text x. subst x.
    exact (normal_form_fixed "Abstract:"
             (PyStr.replace abstract_text "Abstract:" EmptyString)
             "A" "bstract:" eq_refl no_lower_is_A).
Qed.

(** ** Instances of the further theorems *)

Lemma keyword_literal_non_empty :
  Forall (fun kw => kw <> EmptyString) (my_keywords (init None)).
Proof. repeat (constructor; [discriminate|]). constructor. Qed.

Lemma malformed_entry_skipped_witness :
  dl_dts mixed_page = [survey_dt] ++ no_link_dt :: [gas_dt]
  /\ malformed no_link_dt
  /\ parse mixed_page (init None)
     = parse (with_dts mixed_page ([survey_dt] ++ [gas_dt])) (init None).
Proof.
  assert (Hm : malformed no_link_dt).
  { right. split; [exists 3%Z; reflexivity | left; reflexivity]. }
  split; [reflexivity|]. split; [exact Hm|].
  apply (malformed_entry_skipped mixed_page [survey_dt] [gas_dt] no_link_dt
           (init None) eq_refl Hm).
Defined.

Lemma bad_index_aborts_witness :
  dl_dts broken_page = [survey_dt] ++ broken_dt :: [gas_dt]
  /\ PyStr.int (PyStr.last_field (PyStr.split "itemX" "item")) = None
  /\ completion (parse broken_page (init None)) = Raised ValueError
  /\ trace (parse broken_page (init None))
     = trace (parse (with_dts broken_page [survey_dt]) (init None)).
Proof.
  split; [reflexivity|]. split; [reflexivity|].
  apply (bad_index_aborts broken_page [survey_dt] [gas_dt] broken_dt "itemX"
           (init None)); reflexivity.
Defined.

Lemma bad_navigation_link_aborts_witness :
  In (Some "#items") (dlpage_li_hrefs bad_nav_page)
  /\ PyStr.int (PyStr.last_field (PyStr.split "#items" "item")) = None
  /\ parse bad_nav_page (init None)
     = {| final := init None; trace := []; completion := Raised ValueError |}.
Proof.
  assert (Hin : In (Some "#items") (dlpage_li_hrefs bad_nav_page))
    by (right; now left).
  split; [exact Hin|]. split; [reflexivity|].
  apply (bad_navigation_link_aborts bad_nav_page (Some "#items") "#items"
           (init None) Hin); reflexivity.
Defined.

Lemma parse_entries_independent_witness :
  completion (parse (with_dts interferometer_page [survey_dt]) (init None))
  = Returned tt
  /\ trace (parse (with_dts interferometer_page ([survey_dt] ++ [gas_dt]))
              (init None))
     = trace (parse (with_dts interferometer_page [survey_dt]) (init None))
       ++ trace (parse (with_dts interferometer_page [gas_dt]) (init None)).
Proof.
  split; [reflexivity|].
  apply (parse_entries_independent interferometer_page [survey_dt] [gas_dt]
           (init None)). reflexivity.
Defined.

Lemma position_filter_inert_witness :
  completion (collect_anchors (dlpage_li_hrefs mixed_page) [] (init None))
  = Returned ([0; 24] ++ [30])%Z
  /\ parse mixed_page (init None) = parse (without_nav mixed_page) (init None).
Proof.
  split; [reflexivity|].
  apply (position_filter_inert mixed_page [0; 24]%Z 30%Z (init None) eq_refl).
  intros paper_dt n [<- | [<- | [<- | []]]] E; vm_compute in E;
    injection E as <-; lia.
Defined.

Lemma crawl_items_provenance_witness :
  In interferometer_item
    (items_of (trace (crawl gas_fetch interferometer_page (init None))))
  /\ exists paper_dt abstract_link paper_dd,
       In paper_dt (dl_dts interferometer_page)
       /\ PyStr.non_empty (abstract_href paper_dt) = Some abstract_link
       /\ following_dd paper_dt = Some paper_dd
       /\ passes_gate (target_categories (init None)) paper_dd = true
       /\ id interferometer_item
          = PyStr.last_field (PyStr.split abstract_link "/")
       /\ categories interferometer_item
          = categories_of (subjects_text_of paper_dd).
Proof.
  assert (Hin : In interferometer_item
                  (items_of (trace (crawl gas_fetch interferometer_page
                                      (init None)))))
    by (vm_compute; now left).
  split; [exact Hin|].
  exact (crawl_items_provenance gas_fetch interferometer_page (init None)
           interferometer_item Hin).
Defined.

Lemma crawl_items_in_target_witness :
  In interferometer_item
    (items_of (trace (crawl gas_fetch interferometer_page (init None))))
  /\ NoDup (categories interferometer_item)
  /\ (categories interferometer_item = []
      \/ exists c, In c (categories interferometer_item)
                   /\ In c (target_categories (init None))).
Proof.
  assert (Hin : In interferometer_item
                  (items_of (trace (crawl gas_fetch interferometer_page
                                      (init None)))))
    by (vm_compute; now left).
  split; [exact Hin|].
  exact (crawl_items_in_target gas_fetch interferometer_page (init None)
           interferometer_item Hin).
Defined.

Lemma parse_requests_well_formed_witness :
  let rq := escalation "https://arxiv.org/list/astro-ph.GA/new"
              "/abs/2401.00001" interferometer_item "a new interferometer" in
  In rq (requests_of (trace (parse interferometer_page (init None))))
  /\ id (item_data (meta rq)) = PyStr.last_field (PyStr.split (link (url rq)) "/")
  /\ String.length (title_prefix (meta rq)) <= 30.
Proof.
  intros rq.
  assert (Hin : In rq (requests_of (trace (parse interferometer_page
                                             (init None)))))
    by (vm_compute; now left).
  split; [exact Hin|].
  destruct (parse_requests_well_formed interferometer_page (init None) rq Hin)
    as (_ & Hid & Hlen & _).
  split; assumption.
Defined.

Lemma keyword_order_irrelevant_witness :
  same_keywords (init None) reversed_spider
  /\ items_of (trace (crawl gas_fetch mixed_page (init None)))
     = items_of (trace (crawl gas_fetch mixed_page reversed_spider)).
Proof.
  assert (Hs : same_keywords (init None) reversed_spider).
  { split; [reflexivity|]. intros kw. apply in_rev. }
  split; [exact Hs|].
  apply (keyword_order_irrelevant gas_fetch mixed_page (init None)
           reversed_spider Hs).
Defined.

Lemma empty_title_escalates_witness :
  passes_gate (target_categories (init None)) untitled_dd = true
  /\ clean_title_of (list_title_string untitled_dd) = EmptyString
  /\ request_accepted "https://arxiv.org/list/astro-ph.GA/new"
       "/abs/2401.00006" = true
  /\ requests_of
       (trace (category_stage "https://arxiv.org/list/astro-ph.GA/new"
                 "/abs/2401.00006" "2401.00006" untitled_dd (init None)))
     = [escalation "https://arxiv.org/list/astro-ph.GA/new" "/abs/2401.00006"
          (item_of "2401.00006" untitled_dd) EmptyString].
Proof.
  assert (P : passes_gate (target_categories (init None)) untitled_dd = true)
    by reflexivity.
  assert (E : clean_title_of (list_title_string untitled_dd) = EmptyString)
    by reflexivity.
  assert (A : request_accepted "https://arxiv.org/list/astro-ph.GA/new"
                "/abs/2401.00006" = true) by reflexivity.
  split; [exact P|]. split; [exact E|]. split; [exact A|].
  rewrite (empty_title_escalates "https://arxiv.org/list/astro-ph.GA/new"
             "/abs/2401.00006" "2401.00006" untitled_dd (init None)
             P E keyword_literal_non_empty A).
  reflexivity.
Defined.

Lemma blank_abstract_is_mismatch_witness :
  clean_abstract_of "Abstract: " = EmptyString
  /\ logs_of
       (trace (parse_abstract_page
                 {| response_meta := gas_meta;
                    blockquote_abstract := Some "Abstract: " |} (init None)))
     = [(INFO, keyword_skip_message "2401.00003")].
Proof.
  split; [reflexivity|].
  rewrite (blank_abstract_is_mismatch gas_meta "Abstract: " (init None));
    [reflexivity | discriminate | reflexivity
     | exact keyword_literal_non_empty].
Defined.

Lemma index_is_integer_after_item_witness :
  PyStr.contains "#" "i" = false /\ PyStr.contains "24" "item" = false
  /\ anchor_suffixes [Some "#item24"] = ["24"].
Proof.
  split; [reflexivity|]. split; [reflexivity|].
  apply (index_is_integer_after_item "#" "24"); reflexivity.
Defined.

Lemma subjects_without_group_skipped_witness :
  subjects_text_of plain_subject_dd = Some "Astrophysics of Galaxies"
  /\ category_stage "https://arxiv.org/list/astro-ph.GA/new" "/abs/2401.00007"
       "2401.00007" plain_subject_dd (init None)
     = {| final := init None;
          trace := [Log DEBUG (category_skip_message "2401.00007")];
          completion := Returned tt |}.
Proof.
  split; [reflexivity|].
  apply (subjects_without_group_skipped
           "https://arxiv.org/list/astro-ph.GA/new" "/abs/2401.00007"
           "2401.00007" "Astrophysics of Galaxies" plain_subject_dd (init None));
    [reflexivity | discriminate | left; reflexivity].
Defined.

Lemma impossible_targets_skip_all_witness :
  target_categories (init (Some EmptyString)) = [EmptyString]
  /\ category_stage "https://arxiv.org/list//new" "/abs/2401.00002"
       "2401.00002" survey_dd (init (Some EmptyString))
     = {| final := init (Some EmptyString);
          trace := [Log DEBUG (category_skip_message "2401.00002")];
          completion := Returned tt |}.
Proof.
  split; [reflexivity|].
  apply (impossible_targets_skip_all "https://arxiv.org/list//new"
           "/abs/2401.00002" "2401.00002" survey_dd (init (Some EmptyString)));
    [|reflexivity].
  intros c [<- | []]. now left.
Defined.

Lemma label_in_front_removed_witness :
  clean_title_of (Some "Title: A Strong Lensing Survey")
  = PyStr.lower (PyStr.strip " A Strong Lensing Survey").
Proof.
  apply (label_in_front_removed " A Strong Lensing Survey"). reflexivity.
Defined.

Lemma escalated_entry_chain_witness :
  paper_id_of interferometer_dt = Some 1%Z
  /\ past_bound [0; 24; 30]%Z 1 = false
  /\ passes_gate (target_categories (init None)) interferometer_dd = true
  /\ request_accepted "https://arxiv.org/list/astro-ph.GA/new"
       "/abs/2401.00001" = true
  /\ items_of
       (trace (entry_chain gas_fetch "https://arxiv.org/list/astro-ph.GA/new"
                 [0; 24; 30]%Z interferometer_dt (init None)))
     = [interferometer_item].
Proof.
  assert (Hid : paper_id_of interferometer_dt = Some 1%Z) by reflexivity.
  assert (Hb : past_bound [0; 24; 30]%Z 1 = false) by reflexivity.
  assert (Hl : PyStr.non_empty (abstract_href interferometer_dt)
               = Some "/abs/2401.00001") by reflexivity.
  assert (Hdd : following_dd interferometer_dt = Some interferometer_dd)
    by reflexivity.
  assert (P : passes_gate (target_categories (init None)) interferometer_dd
              = true) by reflexivity.
  assert (Hmiss : no_keyword (my_keywords (init None))
                    (clean_title_of (list_title_string interferometer_dd)))
    by (apply misses_no_keyword;
        [reflexivity | exact interferometer_title_misses]).
  assert (Hne : gas_abstract <> EmptyString) by discriminate.
  assert (Ha : request_accepted "https://arxiv.org/list/astro-ph.GA/new"
                 "/abs/2401.00001" = true) by reflexivity.
  split; [exact Hid|]. split; [exact Hb|]. split; [exact P|].
  split; [exact Ha|].
  destruct (escalated_entry_chain gas_fetch
              "https://arxiv.org/list/astro-ph.GA/new" [0; 24; 30]%Z
              interferometer_dt interferometer_dd "/abs/2401.00001"
              gas_abstract 1%Z (init None) Hid Hb Hl Hdd P Hmiss Ha eq_refl Hne)
    as [Hyes _].
  apply Hyes. exists "molecular gas". split.
  - simpl. tauto.
  - apply contains_lower_ci; reflexivity.
Defined.
